(** * ClinicalCodingWithAOAI: the tool-calling dialogue loop of [app.py]

    A shallow embedding of [generate_response], [query_icd_11_api] and the
    session handling of the Streamlit script, followed by the properties
    of the specification that were checked against it.

    Conventions.
    - A Python [str] is a [string]; every [ascii] stands for the code point
      of the same number (the range U+0000..U+00FF).
    - "[str] or [None]" is [option string], [None] being Python's [None].
    - A [dict] is an association list in insertion order, as Python keeps it.
    - The outside world (the LLM endpoint, the two HTTP endpoints, the
      [.env] file, [json.loads]) is an instance of the class [Externals].
    - A computation is a function from a [State] to an outcome and a new
      [State]; the state survives a raised exception, as mutation does in
      Python. *)

From Stdlib Require Import String Ascii List ZArith Bool Arith Lia.
From Stdlib Require DecimalNat DecimalString.
Import ListNotations.
Local Open Scope string_scope.
Local Open Scope list_scope.

(* ===================================================================== *)
(** ** Python strings *)
(* ===================================================================== *)

Module PyStr.

(** The characters [str.split()] treats as separators, below U+0100. *)
Definition is_space (c : ascii) : bool :=
  let n := nat_of_ascii c in
  (((9 <=? n) && (n <=? 13)) || ((28 <=? n) && (n <=? 32))
   || (n =? 133) || (n =? 160))%nat.

Definition flush (cur : string) (acc : list string) : list string :=
  match cur with
  | EmptyString => acc
  | _ => cur :: acc
  end.

(** [s.split()] with [cur] the word being read. *)
Fixpoint split_from (cur : string) (s : string) : list string :=
  match s with
  | EmptyString => flush cur []
  | String c rest =>
      if is_space c then flush cur (split_from EmptyString rest)
      else split_from (cur ++ String c EmptyString) rest
  end.

(** [s.split()] *)
Definition split (s : string) : list string := split_from EmptyString s.

(** [s.replace(",", EMPTY)], [EMPTY] being the empty string *)
Fixpoint replace_comma (s : string) : string :=
  match s with
  | EmptyString => EmptyString
  | String c rest =>
      if Ascii.eqb c "," then replace_comma rest
      else String c (replace_comma rest)
  end.

Fixpoint all_chars (p : ascii -> bool) (s : string) : bool :=
  match s with
  | EmptyString => true
  | String c rest => p c && all_chars p rest
  end.

Fixpoint has_char (a : ascii) (s : string) : bool :=
  match s with
  | EmptyString => false
  | String c rest => Ascii.eqb a c || has_char a rest
  end.

(** The double quote, U+0022, and the backslash, U+005C. *)
Definition dquote : ascii := ascii_of_nat 34.
Definition backslash : ascii := ascii_of_nat 92.

Definition hex_digit (n : nat) : ascii :=
  match get n "0123456789abcdef" with
  | Some c => c
  | None => "0"%char
  end.

Definition hex2 (n : nat) : string :=
  String (hex_digit (n / 16)) (String (hex_digit (n mod 16)) EmptyString).

(** One character of [repr(s)], [quote] being the chosen delimiter. *)
Definition repr_char (quote : ascii) (c : ascii) : string :=
  let n := nat_of_ascii c in
  if Ascii.eqb c quote || Ascii.eqb c backslash
  then String backslash (String c EmptyString)
  else if (n =? 9)%nat then String backslash "t"
  else if (n =? 10)%nat then String backslash "n"
  else if (n =? 13)%nat then String backslash "r"
  else if ((n <? 32) || (n =? 127))%nat then String backslash ("x" ++ hex2 n)
  else if (n <? 127)%nat then String c EmptyString
  else if ((n <=? 160) || (n =? 173))%nat then String backslash ("x" ++ hex2 n)
  else String c EmptyString.

Fixpoint concat_map (f : ascii -> string) (s : string) : string :=
  match s with
  | EmptyString => EmptyString
  | String c rest => f c ++ concat_map f rest
  end.

(** [repr(s)] for a [str]. *)
Definition repr (s : string) : string :=
  let quote : ascii :=
    if has_char "'" s && negb (has_char dquote s) then dquote else "'"%char in
  String quote (concat_map (repr_char quote) s) ++ String quote EmptyString.

(** The truth value of a [str]: false for the empty string only. *)
Definition truthy (s : string) : bool :=
  match s with
  | EmptyString => false
  | _ => true
  end.

End PyStr.

(* ===================================================================== *)
(** ** Python values, dicts and [json.dumps] *)
(* ===================================================================== *)

(** What [json.loads] can return (numbers restricted to integers). *)
#[local] Set Warnings "-register-all".
Inductive PyVal : Type :=
| PyNone
| PyBool (b : bool)
| PyInt (z : Z)
| PyString (s : string)
| PyList (items : list PyVal)
| PyDict (items : list (string * PyVal)).
#[local] Set Warnings "register-all".

(** [type(v).__name__] *)
Definition type_name (v : PyVal) : string :=
  match v with
  | PyNone => "NoneType"
  | PyBool _ => "bool"
  | PyInt _ => "int"
  | PyString _ => "str"
  | PyList _ => "list"
  | PyDict _ => "dict"
  end.

Module Dict.
Section Ops.
Context {K V : Type} (eqb : K -> K -> bool).

(** [d.get(k)] *)
Fixpoint get (k : K) (d : list (K * V)) : option V :=
  match d with
  | [] => None
  | (k', v) :: rest => if eqb k k' then Some v else get k rest
  end.

(** [d[k] = v]: an existing key keeps its place, a new one goes last. *)
Fixpoint set (k : K) (v : V) (d : list (K * V)) : list (K * V) :=
  match d with
  | [] => [(k, v)]
  | (k', v') :: rest =>
      if eqb k k' then (k', v) :: rest else (k', v') :: set k v rest
  end.

Definition keys (d : list (K * V)) : list K := map fst d.

End Ops.
End Dict.

(** Keys and values of the inner dict: [code_.get(...)] gives a [str] or
    [None]. *)
Definition opt_eqb (a b : option string) : bool :=
  match a, b with
  | None, None => true
  | Some x, Some y => String.eqb x y
  | _, _ => false
  end.

(** [code -> link] *)
Abbreviation Codes := (list (option string * option string)).
(** [word -> {code -> link}], the dict [code_mappings]. *)
Abbreviation CodeMappings := (list (string * Codes)).

Module Json.
Local Open Scope string_scope.

(** One character inside a JSON string ([ensure_ascii=True]). *)
Definition escape_char (c : ascii) : string :=
  let n := nat_of_ascii c in
  if Ascii.eqb c PyStr.dquote then String PyStr.backslash (String c EmptyString)
  else if Ascii.eqb c PyStr.backslash then String PyStr.backslash (String c EmptyString)
  else if (n =? 8)%nat then String PyStr.backslash "b"
  else if (n =? 12)%nat then String PyStr.backslash "f"
  else if (n =? 10)%nat then String PyStr.backslash "n"
  else if (n =? 13)%nat then String PyStr.backslash "r"
  else if (n =? 9)%nat then String PyStr.backslash "t"
  else if ((n <? 32) || (126 <? n))%nat
       then String PyStr.backslash ("u00" ++ PyStr.hex2 n)
  else String c EmptyString.

Definition quoted (s : string) : string :=
  String PyStr.dquote
    (PyStr.concat_map escape_char s ++ String PyStr.dquote EmptyString).

(** A dict key: [None] is written as the string [null]. *)
Definition key (k : option string) : string :=
  match k with
  | Some s => quoted s
  | None => quoted "null"
  end.

Definition value (v : option string) : string :=
  match v with
  | Some s => quoted s
  | None => "null"
  end.

(** [", ".join(items)] *)
Fixpoint join (items : list string) : string :=
  match items with
  | [] => EmptyString
  | [x] => x
  | x :: rest => x ++ ", " ++ join rest
  end.

Definition braces (items : list string) : string := "{" ++ join items ++ "}".

Definition dumps_codes (d : Codes) : string :=
  braces (map (fun kv => key (fst kv) ++ ": " ++ value (snd kv)) d).

(** [json.dumps(code_mappings)] *)
Definition dumps (d : CodeMappings) : string :=
  braces (map (fun kv => quoted (fst kv) ++ ": " ++ dumps_codes (snd kv)) d).

End Json.

(* ===================================================================== *)
(** ** Exceptions *)
(* ===================================================================== *)

Inductive exn : Type :=
| KeyError (key : string)
| IndexError (msg : string)
| TypeError (msg : string)
| AttributeError (msg : string)
| UnboundLocalError (msg : string)
| OtherError (msg : string).
    (**r anything raised by a library: a network fault, a malformed
        payload, an authentication fault; [msg] is its [str(e)] *)

(** [str(e)] *)
Definition str_exn (e : exn) : string :=
  match e with
  | KeyError k => PyStr.repr k
  | IndexError m | TypeError m | AttributeError m
  | UnboundLocalError m | OtherError m => m
  end.

Inductive Result (A : Type) : Type :=
| Ok (a : A)
| Raise (e : exn).
Arguments Ok {A} a.
Arguments Raise {A} e.

Definition no_attribute (v : PyVal) (attr : string) : exn :=
  AttributeError
    ("'" ++ type_name v ++ "' object has no attribute '" ++ attr ++ "'")%string.

(* ===================================================================== *)
(** ** The data exchanged with the outside world *)
(* ===================================================================== *)

(** [completion.choices[i].message.tool_calls[j]] *)
Record Function_ : Type := { fn_name : string; fn_arguments : string }.
Record ToolCall : Type := { tc_id : string; tc_function : Function_ }.

Record ChatCompletionMessage : Type :=
  { content : option string; tool_calls : option (list ToolCall) }.

Record Choice : Type :=
  { finish_reason : string; message : ChatCompletionMessage }.

Record Usage : Type :=
  { total_tokens : Z; prompt_tokens : Z; completion_tokens : Z }.

(** [usage] is optional in the client's type of a completion: [None]
    when the reply carries no usage. *)
Record Completion : Type := { choices : list Choice; usage : option Usage }.

(** An entry of [st.session_state["messages"]]. *)
Inductive Message : Type :=
| RoleContent (role : string) (text : string)
    (**r [{"role": role, "content": text}] *)
| AssistantObject (m : ChatCompletionMessage)
    (**r the object [completion.choices[0].message], appended as it is *)
| ToolResult (tool_call_id : string) (role : string) (name : string)
             (result : option string).
    (**r [{"tool_call_id":, "role":, "name":, "content": result}] *)

(** One entry of the [tools] list. *)
Record ToolDecl : Type :=
  { decl_type : string;
    decl_name : string;
    decl_description : string;
    decl_properties : list (string * (string * option string));
    decl_required : list string }.

(** The arguments of [client.chat.completions.create]. *)
Record ChatRequest : Type :=
  { req_model : string;
    req_messages : list Message;
    req_tools : option (list ToolDecl) }.

(** An element of [destinationEntities]. *)
Record Entity : Type := { theCode : option string; id : option string }.

(** [response.json()] of the search endpoint. *)
Record SearchJson : Type := { destinationEntities : option (list Entity) }.

(** What [requests.get] returns. *)
Record Response : Type := { status_code : Z; json : Result SearchJson }.

(** [requests.post(...).json()] of the token endpoint. *)
Record TokenJson : Type := { access_token : option string }.

(** The calls that leave the program, in the order they are made, and
    (ghost) the calls of a capability. *)
Inductive Event : Type :=
| EvChat (req : ChatRequest)
| EvPost (url : string) (data : list (string * string))
| EvGet (url : string) (headers : list (string * string))
| EvCall (name : string) (input : PyVal).

(** The outside world.  [World] is whatever decides the answers; every
    call may change it. *)
Class Externals : Type :=
  { World : Type;
    chat_completions_create : ChatRequest -> World -> Result Completion * World;
    requests_post_json :
      string -> list (string * string) -> World -> Result TokenJson * World;
    requests_get :
      string -> list (string * string) -> World -> Result Response * World;
    json_loads : string -> Result PyVal;
    ENV : list (string * string);
    (** [ICD_KEY = ENV['ICD_KEY']] and [ICD_CLIENT = ENV['ICD_CLIENT']],
        read once when the script starts (lines 115-116) *)
    ICD_KEY : string;
    ICD_CLIENT : string }.

(* ===================================================================== *)
(** ** Session state and the monad of the program *)
(* ===================================================================== *)

(** [st.session_state] once the script has initialised it.  The key
    ["number_tokens"] exists only after a first "Clear Conversation". *)
Record Session : Type :=
  { generated : list (option string);
    past : list string;
    messages : list Message;
    model_name : list string;
    number_tokens : option (list Z) }.

Definition with_messages (ms : list Message) (s : Session) : Session :=
  {| generated := generated s; past := past s; messages := ms;
     model_name := model_name s; number_tokens := number_tokens s |}.

Section Computations.
Context `{Ext : Externals}.

Record State : Type :=
  { world : World; session : Session; trace : list Event }.

(** A computation: it ends by returning or by raising, and in both cases
    leaves a state behind. *)
Definition M (A : Type) : Type := State -> Result A * State.

Definition ret {A} (a : A) : M A := fun s => (Ok a, s).
Definition raise {A} (e : exn) : M A := fun s => (Raise e, s).
Definition bind {A B} (m : M A) (k : A -> M B) : M B :=
  fun s =>
    match m s with
    | (Ok a, s') => k a s'
    | (Raise e, s') => (Raise e, s')
    end.

(** Run [m] and hand its outcome over instead of raising: the body of a
    [try] whose handler catches [Exception]. *)
Definition try {A} (m : M A) : M (Result A) :=
  fun s => let (r, s') := m s in (Ok r, s').

End Computations.

Declare Scope py_scope.
Delimit Scope py_scope with py.
Notation "x <- m ;; k" := (bind m (fun x => k))
  (at level 61, m at next level, right associativity) : py_scope.
Notation "m ;;; k" := (bind m (fun _ => k))
  (at level 61, right associativity) : py_scope.
Local Open Scope py_scope.

Section Program.
Context `{Ext : Externals}.

Definition log (ev : Event) : M unit :=
  fun s => (Ok tt, {| world := world s; session := session s;
                      trace := trace s ++ [ev] |}).

(** Lift a call to the outside world, leaving its event in the trace. *)
Definition external {A} (ev : Event) (call : World -> Result A * World) : M A :=
  fun s =>
    let (r, w) := call (world s) in
    (r, {| world := w; session := session s; trace := trace s ++ [ev] |}).

Definition get_messages : M (list Message) :=
  fun s => (Ok (messages (session s)), s).

(** [st.session_state["messages"].append(m)] *)
Definition append_message (m : Message) : M unit :=
  fun s => (Ok tt, {| world := world s;
                      session := with_messages (messages (session s) ++ [m]) (session s);
                      trace := trace s |}).

Definition update_session (f : Session -> Session) : M unit :=
  fun s => (Ok tt, {| world := world s; session := f (session s);
                      trace := trace s |}).

(** [ENV[key]] *)
Definition env (key : string) : M string :=
  match Dict.get String.eqb key ENV with
  | Some v => ret v
  | None => raise (KeyError key)
  end.

(** A library call that returns or raises without touching the state. *)
Definition lift {A} (r : Result A) : M A := fun s => (r, s).

(** [xs[0]] on a list *)
Definition index0 {A} (xs : list A) : M A :=
  match xs with
  | x :: _ => ret x
  | [] => raise (IndexError "list index out of range")
  end.

(* --------------------------------------------------------------------- *)
(** *** [query_icd_11_api] (lines 115-150) *)
(* --------------------------------------------------------------------- *)

Definition TOKEN_ENDPOINT : string := "https://icdaccessmanagement.who.int/connect/token".
Definition SCOPE : string := "icdapi_access".
Definition GRANT_TYPE : string := "client_credentials".

Definition search_url (word : string) : string :=
  ("https://id.who.int/icd/release/11/2019-04/mms/search?q=" ++ word)%string.

Definition search_headers (token : string) : list (string * string) :=
  [("Accept", "application/json");
   ("Authorization", ("Bearer " ++ token)%string);
   ("API-Version", "v2");
   ("Accept-Language", "en")].

(** [input.split()] for whatever [input] is. *)
Definition split_input (input : PyVal) : M (list string) :=
  match input with
  | PyString s => ret (PyStr.split s)
  | v => raise (no_attribute v "split")
  end.

(** Lines 144-147: [for code_ in potential_codes: ...] *)
Fixpoint record_codes (word : string) (potential_codes : list Entity)
         (code_mappings : CodeMappings) : M CodeMappings :=
  match potential_codes with
  | [] => ret code_mappings
  | code_ :: rest =>
      let code := theCode code_ in
      let link := id code_ in
      match Dict.get String.eqb word code_mappings with
      | None => raise (KeyError word)
      | Some inner =>
          record_codes word rest
            (Dict.set String.eqb word (Dict.set opt_eqb code link inner)
                      code_mappings)
      end
  end.

(** Lines 133-150, the body of [for word in input.split()].  Both
    branches of its [if] return from the function, so the words after
    the first are never looked at. *)
Definition for_word (token : string) (words : list string)
           (code_mappings : CodeMappings) : M (option string) :=
  match words with
  | [] => ret None
  | word :: _ =>
      let code_mappings := Dict.set String.eqb word [] code_mappings in
      let word := PyStr.replace_comma word in
      let url := search_url word in
      let headers := search_headers token in
      response <- external (EvGet url headers) (requests_get url headers) ;;
      if (status_code response =? 200)%Z then
        body <- lift (json response) ;;
        potential_codes <-
          match destinationEntities body with
          | Some l => ret l
          | None => raise (KeyError "destinationEntities")
          end ;;
        code_mappings <- record_codes word potential_codes code_mappings ;;
        ret (Some (Json.dumps code_mappings))
      else ret None
  end.

(** Lines 125-128 *)
Definition payload : list (string * string) :=
  [("client_id", ICD_CLIENT);
   ("client_secret", ICD_KEY);
   ("scope", SCOPE);
   ("grant_type", GRANT_TYPE)].

Definition query_icd_11_api (input : PyVal) : M (option string) :=
  log (EvCall "query_icd_11_api" input) ;;;
  r <- external (EvPost TOKEN_ENDPOINT payload)
                (requests_post_json TOKEN_ENDPOINT payload) ;;
  token <- match access_token r with
           | Some t => ret t
           | None => raise (KeyError "access_token")
           end ;;
  let code_mappings : CodeMappings := [] in
  words <- split_input input ;;
  for_word token words code_mappings.

(* --------------------------------------------------------------------- *)
(** *** [generate_response] (lines 46-113) *)
(* --------------------------------------------------------------------- *)

Definition tools : list ToolDecl :=
  [ {| decl_type := "function";
       decl_name := "query_icd_11_api";
       decl_description := "Function to call the ICD-11 API and return suggestions for medical codes based on the user input. It returns a dictionary that contains the input word and the corresponding ICD-11 code and web link.";
       decl_properties :=
         [("input", ("string", Some "The input query from the user that needs to be sent to the ICD-11 API for coding."));
          ("unit", ("string", None))];
       decl_required := ["input"] |} ].

(** What [generate_response] returns:
    [response, total_tokens, prompt_tokens, completion_tokens]. *)
Definition Reply : Type := (option string * option Z * option Z * option Z)%type.

(** Lines 78-80 *)
Definition available_functions : list (string * (PyVal -> M (option string))) :=
  [("query_icd_11_api", query_icd_11_api)].

(** [function_args.get("input")] *)
Definition args_get (function_args : PyVal) (key : string) : M PyVal :=
  match function_args with
  | PyDict d =>
      match Dict.get String.eqb key d with
      | Some v => ret v
      | None => ret PyNone
      end
  | v => raise (no_attribute v "get")
  end.

(** What reading a counter of [completion.usage] raises when the reply
    has no usage. *)
Definition missing_usage : exn := no_attribute PyNone "total_tokens".

(** [completion.usage], as lines 101-103 and 110-112 use it: the first
    of the three reads, [completion.usage.total_tokens], raises when
    [usage] is [None]. *)
Definition usage_of (completion : Completion) : M Usage :=
  match usage completion with
  | Some u => ret u
  | None => raise missing_usage
  end.

(** Lines 69-74: the client and the first request, which binds the local
    variable [completion]. *)
Definition first_request : M Completion :=
  api_key <- env "AZURE_OPENAI_KEY" ;;
  azure_endpoint <- env "AZURE_OPENAI_ENDPOINT" ;;
  model <- env "AZURE_OPENAI_DEPLOYMENT_NAME" ;;
  msgs <- get_messages ;;
  let req := {| req_model := model; req_messages := msgs;
                req_tools := Some tools |} in
  external (EvChat req) (chat_completions_create req).

(** Lines 78-104: the branch taken when the finish reason is
    ["tool_calls"]. *)
Definition tool_branch (completion : Completion) (choice : Choice) : M Reply :=
  append_message (AssistantObject (message choice)) ;;;
  tool_call <- match tool_calls (message choice) with
               | Some calls => index0 calls
               | None => raise (TypeError "'NoneType' object is not subscriptable")
               end ;;
  let function := tc_function tool_call in
  let function_name := fn_name function in
  function_to_call <- match Dict.get String.eqb function_name available_functions with
                      | Some f => ret f
                      | None => raise (KeyError function_name)
                      end ;;
  function_args <- lift (json_loads (fn_arguments function)) ;;
  input <- args_get function_args "input" ;;
  response <- function_to_call input ;;
  append_message (ToolResult (tc_id tool_call) "tool" function_name response) ;;;
  model <- env "AZURE_OPENAI_DEPLOYMENT_NAME" ;;
  msgs <- get_messages ;;
  let req := {| req_model := model; req_messages := msgs; req_tools := None |} in
  second <- external (EvChat req) (chat_completions_create req) ;;
  second_choice <- index0 (choices second) ;;
  let second_response := content (message second_choice) in
  u <- usage_of completion ;;
  let total_tokens := total_tokens u in
  let prompt_tokens := prompt_tokens u in
  let completion_tokens := completion_tokens u in
  ret (second_response, Some total_tokens, Some prompt_tokens, Some completion_tokens).

(** How control leaves the [try] statement of lines 68-109. *)
Inductive TryExit : Type :=
| Returned (reply : Reply)            (**r the [return] of line 104 *)
| FellThrough (response : option string)  (**r the [if] of line 77 was skipped *)
| Caught (e : exn).                   (**r [except Exception as e] *)

(** Lines 75-104, with [completion] bound. *)
Definition after_first_request (completion : Completion) : M TryExit :=
  choice <- index0 (choices completion) ;;
  let response := content (message choice) in
  let tool_calls := finish_reason choice in
  if String.eqb tool_calls "tool_calls" then
    reply <- tool_branch completion choice ;;
    ret (Returned reply)
  else ret (FellThrough response).

(** Lines 68-105: the [try] block.  Besides the way it was left it
    gives the local variable [completion], [None] while still unbound. *)
Definition try_block : M (option Completion * TryExit) :=
  r <- try first_request ;;
  match r with
  | Raise e => ret (None, Caught e)
  | Ok completion =>
      r <- try (after_first_request completion) ;;
      match r with
      | Raise e => ret (Some completion, Caught e)
      | Ok exit => ret (Some completion, exit)
      end
  end.

(** Lines 110-113: they read [completion], bound or not. *)
Definition read_usage (completion : option Completion) (response : option string) : M Reply :=
  match completion with
  | None =>
      raise (UnboundLocalError
               "cannot access local variable 'completion' where it is not associated with a value")
  | Some completion =>
      u <- usage_of completion ;;
      let total_tokens := total_tokens u in
      let prompt_tokens := prompt_tokens u in
      let completion_tokens := completion_tokens u in
      ret (response, Some total_tokens, Some prompt_tokens, Some completion_tokens)
  end.

Definition error_text (e : exn) : string :=
  ("The API could not handle this content: " ++ str_exn e)%string.

Definition generate_response (prompt : string) : M Reply :=
  append_message (RoleContent "user" prompt) ;;;
  x <- try_block ;;
  let (completion, exit) := x in
  match exit with
  | Returned reply => ret reply
  | FellThrough response => read_usage completion response
  | Caught e =>
      let response := Some (error_text e) in
      let total_tokens : option Z := None in
      let prompt_tokens : option Z := None in
      let completion_tokens : option Z := None in
      (* lines 110-112 assign the three counters again *)
      read_usage completion response
  end.

(* --------------------------------------------------------------------- *)
(** *** The script around them (lines 23-44 and 159-170) *)
(* --------------------------------------------------------------------- *)

(** What the widgets give in one run of the script. *)
Record Widgets : Type :=
  { system_prompt : string;   (**r the "System Prompt" text area *)
    clear_button : bool;      (**r "Clear Conversation" *)
    submit_button : bool;     (**r "Send" *)
    user_input : string }.    (**r the "You:" text area *)

Definition seed_message (w : Widgets) : Message :=
  RoleContent "system" (system_prompt w).

(** Lines 27-34; [None] is a session that has no key yet. *)
Definition initialise (seed : Message) (store : option Session) : Session :=
  match store with
  | Some s => s
  | None => {| generated := []; past := []; messages := [seed];
               model_name := []; number_tokens := None |}
  end.

(** Lines 39-44 *)
Definition clear_conversation (seed : Message) (s : Session) : Session :=
  {| generated := []; past := []; messages := [seed];
     number_tokens := Some []; model_name := [] |}.

Definition append_past (x : string) (s : Session) : Session :=
  {| generated := generated s; past := past s ++ [x]; messages := messages s;
     model_name := model_name s; number_tokens := number_tokens s |}.

Definition append_generated (x : option string) (s : Session) : Session :=
  {| generated := generated s ++ [x]; past := past s; messages := messages s;
     model_name := model_name s; number_tokens := number_tokens s |}.

Definition append_model_name (x : string) (s : Session) : Session :=
  {| generated := generated s; past := past s; messages := messages s;
     model_name := model_name s ++ [x]; number_tokens := number_tokens s |}.

(** Lines 39-44 and 164-170, on an initialised session. *)
Definition script (w : Widgets) : M unit :=
  (if clear_button w
   then update_session (clear_conversation (seed_message w))
   else ret tt) ;;;
  if submit_button w && PyStr.truthy (user_input w) then
    reply <- generate_response (user_input w) ;;
    let '(output, total_tokens, prompt_tokens, completion_tokens) := reply in
    update_session (append_past (user_input w)) ;;;
    update_session (append_generated output) ;;;
    model <- env "AZURE_OPENAI_DEPLOYMENT_NAME" ;;
    update_session (append_model_name model)
  else ret tt.

(** One run of the script, from the session state and the world it finds. *)
Definition run_script (w : Widgets) (store : option Session) (wd : World)
  : Result unit * State :=
  script w {| world := wd;
              session := initialise (seed_message w) store;
              trace := [] |}.

(** Run after run; what a run leaves in the session state is what the
    next one finds, whether the run ended normally or not. *)
Fixpoint run_scripts (ws : list Widgets) (store : option Session) (wd : World)
  : option Session * World :=
  match ws with
  | [] => (store, wd)
  | w :: rest =>
      let (_, s) := run_script w store wd in
      run_scripts rest (Some (session s)) (world s)
  end.

(** The events a computation added to the trace. *)
Definition events_since (before after : State) : list Event :=
  skipn (length (trace before)) (trace after).

Definition is_call (ev : Event) : bool :=
  match ev with EvCall _ _ => true | _ => false end.

Definition is_get (ev : Event) : bool :=
  match ev with EvGet _ _ => true | _ => false end.

Definition is_post (ev : Event) : bool :=
  match ev with EvPost _ _ => true | _ => false end.

Definition is_chat (ev : Event) : bool :=
  match ev with EvChat _ => true | _ => false end.

(* --------------------------------------------------------------------- *)
(** *** Vocabulary of the statements *)
(* --------------------------------------------------------------------- *)

(** The token endpoint, asked in world [w], grants the token [t]. *)
Definition token_granted (w : World) (t : string) (w' : World) : Prop :=
  requests_post_json TOKEN_ENDPOINT payload w = (Ok {| access_token := Some t |}, w').

(** The search for [word], made in world [w] with token [t], is answered
    by [resp]. *)
Definition search_answers (word t : string) (w : World) (resp : Response)
           (w' : World) : Prop :=
  requests_get (search_url (PyStr.replace_comma word)) (search_headers t) w
  = (Ok resp, w').

(** The [.env] file has the three Azure keys, [model] being the
    deployment name. *)
Definition configured (model : string) : Prop :=
  Dict.get String.eqb "AZURE_OPENAI_KEY" ENV <> None /\
  Dict.get String.eqb "AZURE_OPENAI_ENDPOINT" ENV <> None /\
  Dict.get String.eqb "AZURE_OPENAI_DEPLOYMENT_NAME" ENV = Some model.

Definition user_message (prompt : string) : Message := RoleContent "user" prompt.

(** The request of lines 70-74 for a turn that starts in [st]. *)
Definition first_chat_request (model prompt : string) (st : State) : ChatRequest :=
  {| req_model := model;
     req_messages := messages (session st) ++ [user_message prompt];
     req_tools := Some tools |}.

(** The state in which line 75 starts: the first reply has come in world
    [w1]. *)
Definition state_at_reply (model prompt : string) (st : State) (w1 : World)
  : State :=
  {| world := w1;
     session := with_messages (messages (session st) ++ [user_message prompt])
                              (session st);
     trace := trace st ++ [EvChat (first_chat_request model prompt st)] |}.

Definition unbound_completion : exn :=
  UnboundLocalError
    "cannot access local variable 'completion' where it is not associated with a value".

(** The state in which line 86 calls the capability: the first reply
    [choice] has come in world [w1] and its message has been appended. *)
Definition state_at_call (model prompt : string) (st : State) (w1 : World)
           (choice : Choice) : State :=
  {| world := w1;
     session := with_messages
                  (messages (session st)
                   ++ [user_message prompt; AssistantObject (message choice)])
                  (session st);
     trace := trace st ++ [EvChat (first_chat_request model prompt st)] |}.

(** The request of lines 97-100, after the capability asked for by
    [tool_call] has returned [response]. *)
Definition second_chat_request (model prompt : string) (st : State)
           (choice : Choice) (tool_call : ToolCall) (response : option string)
  : ChatRequest :=
  {| req_model := model;
     req_messages :=
       messages (session st)
       ++ [user_message prompt;
           AssistantObject (message choice);
           ToolResult (tc_id tool_call) "tool" (fn_name (tc_function tool_call))
                      response];
     req_tools := None |}.

(** The argument line 87 passes to the capability. *)
Definition input_of (args : list (string * PyVal)) : PyVal :=
  match Dict.get String.eqb "input" args with
  | Some v => v
  | None => PyNone
  end.

(** The messages of a capability exchange: the assistant's request as
    received, and the result of the capability. *)
Definition exchange (m : Message) : bool :=
  match m with
  | AssistantObject _ | ToolResult _ _ _ _ => true
  | RoleContent _ _ => false
  end.


Definition same_lists (a b : Session) : Prop :=
  generated a = generated b /\ past a = past b /\
  model_name a = model_name b /\ number_tokens a = number_tokens b.

(** [s'] comes after [s] in a turn: the conversation and the trace only
    grew, by messages of a capability exchange, and every chat request
    made in between was sent the conversation of [s] and more. *)
Definition extends (s s' : State) : Prop :=
  same_lists (session s) (session s') /\
  exists ms evs,
    messages (session s') = messages (session s) ++ ms /\
    forallb exchange ms = true /\
    trace s' = trace s ++ evs /\
    forall req, In (EvChat req) evs ->
                exists ms', req_messages req = messages (session s) ++ ms'.

Definition extending {A} (m : M A) : Prop := forall s, extends s (snd (m s)).

End Program.

(* ===================================================================== *)
(** ** The chat history (lines 173-184) *)
(* ===================================================================== *)

(** [str(i)] for an index [i] *)
Definition str_nat (i : nat) : string :=
  DecimalString.NilEmpty.string_of_uint (Nat.to_uint i).

(** One call of [message(...)] of [streamlit_chat]. *)
Record Bubble : Type :=
  { bubble_text : option string;
    is_user : bool;
    key : string;
    avatar_style : string }.

Definition user_bubble (i : nat) (text : string) : Bubble :=
  {| bubble_text := Some text; is_user := true;
     key := (str_nat i ++ "_user")%string; avatar_style := "shapes" |}.

Definition reply_bubble (i : nat) (text : option string) : Bubble :=
  {| bubble_text := text; is_user := false;
     key := str_nat i; avatar_style := "identicon" |}.

(** Lines 175-184, [indices] being what is left of
    [range(len(st.session_state["generated"]))]: the bubbles shown, and
    how the loop ended. *)
Fixpoint render_loop (indices : list nat) (s : Session)
  : list Bubble * Result unit :=
  match indices with
  | [] => ([], Ok tt)
  | i :: rest =>
      match nth_error (past s) i with
      | None => ([], Raise (IndexError "list index out of range"))
      | Some text =>
          match nth_error (generated s) i with
          | None => ([user_bubble i text],
                     Raise (IndexError "list index out of range"))
          | Some reply =>
              let (shown, r) := render_loop rest s in
              (user_bubble i text :: reply_bubble i reply :: shown, r)
          end
      end
  end.

(** Lines 173-184 *)
Definition render (s : Session) : list Bubble * Result unit :=
  match generated s with
  | [] => ([], Ok tt)
  | _ :: _ => render_loop (seq 0 (length (generated s))) s
  end.

(** The bubbles of turn after turn, from index [i] on. *)
Fixpoint bubbles_from (i : nat) (texts : list string)
         (replies : list (option string)) : list Bubble :=
  match texts, replies with
  | text :: texts', reply :: replies' =>
      user_bubble i text :: reply_bubble i reply
      :: bubbles_from (S i) texts' replies'
  | _, _ => []
  end.

(** The three lists of the history have one entry per answered turn. *)
Definition aligned (s : Session) : Prop :=
  length (past s) = length (generated s) /\
  length (model_name s) = length (generated s).

(** The inner dict lines 144-147 build from an empty one. *)
Definition codes_of (entities : list Entity) : Codes :=
  fold_left (fun d code_ => Dict.set opt_eqb (theCode code_) (id code_) d)
            entities [].

Definition is_string (v : PyVal) : bool :=
  match v with PyString _ => true | _ => false end.

Section Shapes.
Context `{Ext : Externals}.

(** The events of one call of [query_icd_11_api]. *)
Definition lookup_trace (input : PyVal) (searches : list Event) : list Event :=
  EvCall "query_icd_11_api" input :: EvPost TOKEN_ENDPOINT payload :: searches.

(** The events a turn can leave, in their order: nothing; or the first
    chat request, with the tools declared; then possibly one lookup, with
    at most one search; then possibly the second chat request, with no
    tools declared. *)
Definition turn_shape (evs : list Event) : Prop :=
  evs = [] \/
  exists req1,
    req_tools req1 = Some tools /\
    (evs = [EvChat req1] \/
     exists input searches,
       forallb is_get searches = true /\ (length searches <= 1)%nat /\
       (evs = EvChat req1 :: lookup_trace input searches \/
        exists req2,
          req_tools req2 = None /\
          evs = EvChat req1 :: lookup_trace input searches ++ [EvChat req2])).

(** The state line 67 leaves. *)
Definition state_at_try (prompt : string) (st : State) : State :=
  {| world := world st;
     session := with_messages (messages (session st) ++ [user_message prompt])
                              (session st);
     trace := trace st |}.

End Shapes.

(* ===================================================================== *)
(** ** Scripted worlds, for running the program on concrete inputs *)
(* ===================================================================== *)

Module Scenario.

(** A world that answers from a script: the n-th chat request gets the
    n-th reply; the token endpoint always answers [token_reply]; the
    search endpoint answers by URL. *)
Record Scripted : Type :=
  { chat_replies : list (Result Completion);
    token_reply : Result TokenJson;
    search_reply : string -> Result Response;
    loads_reply : string -> Result PyVal;
    env_file : list (string * string) }.

Definition externals (sc : Scripted) : Externals :=
  {| World := nat;
     chat_completions_create := fun _ n =>
       (nth n (chat_replies sc) (Raise (OtherError "Connection error.")), S n);
     requests_post_json := fun _ _ n => (token_reply sc, n);
     requests_get := fun url _ n => (search_reply sc url, n);
     json_loads := loads_reply sc;
     ENV := env_file sc;
     ICD_KEY := "secret";
     ICD_CLIENT := "client" |}.

Definition env_ok : list (string * string) :=
  [("AZURE_OPENAI_KEY", "k");
   ("AZURE_OPENAI_ENDPOINT", "https://example.openai.azure.com/");
   ("AZURE_OPENAI_DEPLOYMENT_NAME", "gpt-4");
   ("ICD_KEY", "secret");
   ("ICD_CLIENT", "client")].

Definition token_ok : Result TokenJson := Ok {| access_token := Some "tok" |}.

Definition MG26 : Entity :=
  {| theCode := Some "MG26"; id := Some "http://id.who.int/icd/1" |}.

Definition found (entities : list Entity) : Result Response :=
  Ok {| status_code := 200;
        json := Ok {| destinationEntities := Some entities |} |}.

Definition failed (status : Z) : Result Response :=
  Ok {| status_code := status; json := Raise (OtherError "Expecting value") |}.

(** The search endpoint knows "fever" and answers 404 to the rest. *)
Definition search_fever (url : string) : Result Response :=
  if String.eqb url (search_url "fever") then found [MG26] else failed 404.

(** The search endpoint answers [status] to every query. *)
Definition search_status (status : Z) (url : string) : Result Response :=
  failed status.

(** The text [{"input": "fever"}]. *)
Definition args_fever : string :=
  ("{" ++ Json.quoted "input" ++ ": " ++ Json.quoted "fever" ++ "}")%string.

Definition loads_fever (s : string) : Result PyVal :=
  if String.eqb s args_fever then Ok (PyDict [("input", PyString "fever")])
  else Raise (OtherError "Expecting value: line 1 column 1 (char 0)").

Definition call (id_ name arguments : string) : ToolCall :=
  {| tc_id := id_; tc_function := {| fn_name := name; fn_arguments := arguments |} |}.

(** A first reply that asks for two invocations at once. *)
Definition asks_lookup : Completion :=
  {| choices :=
       [{| finish_reason := "tool_calls";
           message := {| content := None;
                         tool_calls := Some [call "call_1" "query_icd_11_api" args_fever;
                                             call "call_2" "query_icd_11_api" "{}"] |} |}];
     usage := Some {| total_tokens := 30; prompt_tokens := 20;
                      completion_tokens := 10 |} |}.

Definition answers (text : string) (total prompt completion : Z) : Completion :=
  {| choices := [{| finish_reason := "stop";
                    message := {| content := Some text; tool_calls := None |} |}];
     usage := Some {| total_tokens := total; prompt_tokens := prompt;
                      completion_tokens := completion |} |}.

(** Only the ICD endpoints matter. *)
Definition lookup_world (search : string -> Result Response) : Scripted :=
  {| chat_replies := []; token_reply := token_ok; search_reply := search;
     loads_reply := loads_fever; env_file := env_ok |}.

(** The LLM cannot be reached. *)
Definition llm_down : Scripted :=
  {| chat_replies := [Raise (OtherError "Connection error.")];
     token_reply := token_ok; search_reply := search_fever;
     loads_reply := loads_fever; env_file := env_ok |}.

(** The LLM asks for the lookup, and the token endpoint refuses the
    credentials. *)
Definition auth_refused : Scripted :=
  {| chat_replies := [Ok asks_lookup; Ok (answers "unused" 7 5 2)];
     token_reply := Raise (OtherError "401 Client Error: Unauthorized");
     search_reply := search_fever;
     loads_reply := loads_fever; env_file := env_ok |}.

(** The LLM asks for the lookup and then answers from its result. *)
Definition code_fever : Scripted :=
  {| chat_replies := [Ok asks_lookup;
                      Ok (answers "The suggested code is MG26." 90 80 10)];
     token_reply := token_ok; search_reply := search_fever;
     loads_reply := loads_fever; env_file := env_ok |}.

(** The LLM answers directly, twice. *)
Definition small_talk : Scripted :=
  {| chat_replies := [Ok (answers "Hello." 12 9 3); Ok (answers "Again." 20 16 4)];
     token_reply := token_ok; search_reply := search_fever;
     loads_reply := loads_fever; env_file := env_ok |}.

(** The first request fails, the second is answered. *)
Definition flaky : Scripted :=
  {| chat_replies := [Raise (OtherError "Connection error."); Ok (answers "Hello." 12 9 3)];
     token_reply := token_ok; search_reply := search_fever;
     loads_reply := loads_fever; env_file := env_ok |}.

Definition seed : Message := RoleContent "system" "You are an assistant to a clinical coder.".

Definition fresh_session : Session :=
  {| generated := []; past := []; messages := [seed]; model_name := [];
     number_tokens := None |}.

Definition start (sc : Scripted) : @State (externals sc) :=
  @Build_State (externals sc) 0%nat fresh_session [].

Definition send (text : string) : Widgets :=
  {| system_prompt := "You are an assistant to a clinical coder.";
     clear_button := false; submit_button := true; user_input := text |}.

Definition clear (prompt : string) : Widgets :=
  {| system_prompt := prompt; clear_button := true; submit_button := false;
     user_input := EmptyString |}.

End Scenario.


(** More scripted worlds, for the edges of the program. *)
Module Cases.

(** The search endpoint finds nothing, whatever is asked. *)
Definition search_nothing (url : string) : Result Response := Scenario.found [].

(** Two links are listed for MG26. *)
Definition MG26_again : Entity :=
  {| theCode := Some "MG26"; id := Some "http://id.who.int/icd/2" |}.

Definition search_twice (url : string) : Result Response :=
  Scenario.found [Scenario.MG26; MG26_again].

(** The token endpoint answers without a token. *)
Definition no_token : Scenario.Scripted :=
  {| Scenario.chat_replies := [];
     Scenario.token_reply := Ok {| access_token := None |};
     Scenario.search_reply := Scenario.search_fever;
     Scenario.loads_reply := Scenario.loads_fever;
     Scenario.env_file := Scenario.env_ok |}.

(** The [.env] file lacks the deployment name. *)
Definition no_deployment : Scenario.Scripted :=
  {| Scenario.chat_replies := [Ok (Scenario.answers "Hello." 12 9 3)];
     Scenario.token_reply := Scenario.token_ok;
     Scenario.search_reply := Scenario.search_fever;
     Scenario.loads_reply := Scenario.loads_fever;
     Scenario.env_file :=
       [("AZURE_OPENAI_KEY", "k");
        ("AZURE_OPENAI_ENDPOINT", "https://example.openai.azure.com/")] |}.

Definition asks (name arguments : string) : Completion :=
  {| choices :=
       [{| finish_reason := "tool_calls";
           message := {| content := None;
                         tool_calls := Some [Scenario.call "call_1" name arguments] |} |}];
     usage := Some {| total_tokens := 30; prompt_tokens := 20;
                      completion_tokens := 10 |} |}.

Definition first_reply (completion : Completion) : Scenario.Scripted :=
  {| Scenario.chat_replies := [Ok completion; Ok (Scenario.answers "unused" 7 5 2)];
     Scenario.token_reply := Scenario.token_ok;
     Scenario.search_reply := Scenario.search_fever;
     Scenario.loads_reply := Scenario.loads_fever;
     Scenario.env_file := Scenario.env_ok |}.

(** The LLM asks for a capability that does not exist. *)
Definition unknown_capability : Scenario.Scripted :=
  first_reply (asks "query_snomed_api" Scenario.args_fever).

(** The LLM asks for the lookup with arguments that are no JSON. *)
Definition unreadable_arguments : Scenario.Scripted :=
  first_reply (asks "query_icd_11_api" "{").

(** The LLM answers directly, and its reply carries no usage. *)
Definition no_usage : Scenario.Scripted :=
  {| Scenario.chat_replies :=
       [Ok {| choices := [{| finish_reason := "stop";
                             message := {| content := Some "Hello.";
                                           tool_calls := None |} |}];
              usage := None |}];
     Scenario.token_reply := Scenario.token_ok;
     Scenario.search_reply := Scenario.search_fever;
     Scenario.loads_reply := Scenario.loads_fever;
     Scenario.env_file := Scenario.env_ok |}.

(** A session after one answered turn. *)
Definition talked : Session :=
  {| generated := [Some "Hello."]; past := ["hi"];
     messages := [Scenario.seed; RoleContent "user" "hi"];
     model_name := ["gpt-4"]; number_tokens := None |}.

End Cases.

(* ===================================================================== *)
(** ** Facts about strings and lists *)
(* ===================================================================== *)

Lemma split_from_blank (s : string) :
  PyStr.all_chars PyStr.is_space s = true ->
  PyStr.split_from EmptyString s = [].
Proof.
  induction s as [|c rest IH]; simpl; intro H.
  - reflexivity.
  - apply andb_true_iff in H as [Hc Hrest].
    rewrite Hc. simpl. auto.
Qed.

Lemma split_blank (s : string) :
  PyStr.all_chars PyStr.is_space s = true -> PyStr.split s = [].
Proof. apply split_from_blank. Qed.

Lemma skipn_past {A} (l evs : list A) : skipn (length l) (l ++ evs) = evs.
Proof. induction l; simpl; auto. Qed.

Lemma app_cons_assoc {A} (l : list A) (x : A) (r : list A) :
  (l ++ [x]) ++ r = l ++ x :: r.
Proof. rewrite <- app_assoc. reflexivity. Qed.

(* ===================================================================== *)
(** ** [query_icd_11_api] *)
(* ===================================================================== *)

Section Lookup.
Context `{Ext : Externals}.

(** Recording codes never touches the state, and on a dict with the one
    key [key] it either fails on the word or keeps that one key. *)
Lemma record_codes_single (word key : string) (codes : list Entity) :
  forall (inner : Codes) (s : State),
    snd (record_codes word codes [(key, inner)] s) = s /\
    ((exists inner', fst (record_codes word codes [(key, inner)] s)
                     = Ok [(key, inner')]) \/
     (fst (record_codes word codes [(key, inner)] s) = Raise (KeyError word)
      /\ String.eqb word key = false /\ codes <> [])).
Proof.
  induction codes as [|code_ rest IH]; intros inner s; simpl.
  - split; [reflexivity | left; eauto].
  - destruct (String.eqb word key) eqn:E.
    + destruct (IH (Dict.set opt_eqb (theCode code_) (id code_) inner) s)
        as [Hs [Hok | [_ [Hno _]]]].
      * split; [exact Hs | left; exact Hok].
      * discriminate Hno.
    + split; [reflexivity | right; repeat split; discriminate].
Qed.

Lemma record_codes_state (word : string) (codes : list Entity) :
  forall (m : CodeMappings) (s : State), snd (record_codes word codes m s) = s.
Proof.
  induction codes as [|code_ rest IH]; intros m s; simpl.
  - reflexivity.
  - destruct (Dict.get String.eqb word m); [apply IH | reflexivity].
Qed.

Ltac run_lookup :=
  unfold query_icd_11_api, for_word, split_input, bind, log, external, lift,
    ret, raise; simpl.

(** The run of a lookup whose first search is answered by a status other
    than 200. *)
Lemma lookup_not_200 (input word : string) (rest : list string) (st : State)
      (t : string) (w1 : World) (resp : Response) (w2 : World) :
  PyStr.split input = word :: rest ->
  token_granted (world st) t w1 ->
  search_answers word t w1 resp w2 ->
  status_code resp <> 200%Z ->
  query_icd_11_api (PyString input) st
  = (Ok None,
     {| world := w2; session := session st;
        trace := trace st ++
                 [EvCall "query_icd_11_api" (PyString input);
                  EvPost TOKEN_ENDPOINT payload;
                  EvGet (search_url (PyStr.replace_comma word)) (search_headers t)] |}).
Proof.
  intros Hsplit Htok Hget Hstatus.
  unfold token_granted in Htok. unfold search_answers in Hget.
  run_lookup. rewrite Htok. simpl. rewrite Hsplit. simpl. rewrite Hget. simpl.
  apply Z.eqb_neq in Hstatus. rewrite Hstatus.
  repeat rewrite <- app_assoc. reflexivity.
Qed.

(** The run of a lookup on a blank input. *)
Lemma lookup_blank (input : string) (st : State) (t : string) (w1 : World) :
  PyStr.all_chars PyStr.is_space input = true ->
  token_granted (world st) t w1 ->
  query_icd_11_api (PyString input) st
  = (Ok None,
     {| world := w1; session := session st;
        trace := trace st ++
                 [EvCall "query_icd_11_api" (PyString input);
                  EvPost TOKEN_ENDPOINT payload] |}).
Proof.
  intros Hblank Htok. unfold token_granted in Htok.
  run_lookup. rewrite Htok. simpl. rewrite (split_blank _ Hblank).
  repeat rewrite <- app_assoc. reflexivity.
Qed.

(** What a lookup leaves behind, whatever it is given and however it
    ends: the session untouched, and in the trace its own call, the
    token request and at most one search. *)
Lemma lookup_effects (input : PyVal) (st : State) :
  session (snd (query_icd_11_api input st)) = session st /\
  exists evs,
    trace (snd (query_icd_11_api input st))
    = trace st ++ EvCall "query_icd_11_api" input :: EvPost TOKEN_ENDPOINT payload :: evs
    /\ forallb is_get evs = true /\ (length evs <= 1)%nat.
Proof.
  run_lookup.
  destruct (requests_post_json TOKEN_ENDPOINT payload (world st)) as [[r|e] w1];
    simpl.
  2:{ split; [reflexivity|]. exists []. rewrite <- app_assoc. simpl. auto. }
  destruct (access_token r) as [t|]; simpl.
  2:{ split; [reflexivity|]. exists []. rewrite <- app_assoc. simpl. auto. }
  destruct input; simpl;
    try (split; [reflexivity|]; exists []; rewrite <- app_assoc; simpl; auto; fail).
  destruct (PyStr.split s) as [|word rest]; simpl.
  { split; [reflexivity|]. exists []. rewrite <- app_assoc. simpl. auto. }
  destruct (requests_get _ _ w1) as [[resp|e] w2]; simpl.
  2:{ split; [reflexivity|]. eexists [_]. repeat rewrite <- app_assoc. simpl. auto. }
  destruct (status_code resp =? 200)%Z; simpl.
  2:{ split; [reflexivity|]. eexists [_]. repeat rewrite <- app_assoc. simpl. auto. }
  destruct (json resp) as [body|e]; simpl.
  2:{ split; [reflexivity|]. eexists [_]. repeat rewrite <- app_assoc. simpl. auto. }
  destruct (destinationEntities body) as [codes|]; simpl.
  2:{ split; [reflexivity|]. eexists [_]. repeat rewrite <- app_assoc. simpl. auto. }
  match goal with
  | |- context [record_codes ?w ?c ?m ?s] =>
      destruct (record_codes w c m s) as [[m'|e] s'] eqn:E
  end; apply (f_equal snd) in E; rewrite record_codes_state in E;
    simpl in E; subst s'; simpl;
    (split; [reflexivity|]; eexists [_]; repeat rewrite <- app_assoc; simpl; auto).
Qed.

(** A lookup that returns a text went through one search, for the first
    word, and the text is the dump of a dict with that word as only key. *)
Lemma lookup_success (input : PyVal) (st st' : State) (text : string) :
  query_icd_11_api input st = (Ok (Some text), st') ->
  exists s word rest codes t,
    input = PyString s /\
    PyStr.split s = word :: rest /\
    text = Json.dumps [(word, codes)] /\
    session st' = session st /\
    trace st' = trace st ++
                [EvCall "query_icd_11_api" input;
                 EvPost TOKEN_ENDPOINT payload;
                 EvGet (search_url (PyStr.replace_comma word)) (search_headers t)].
Proof.
  run_lookup.
  destruct (requests_post_json TOKEN_ENDPOINT payload (world st)) as [[r|e] w1];
    simpl; [|discriminate].
  destruct (access_token r) as [t|]; simpl; [|discriminate].
  destruct input as [| | |s| |]; simpl; try discriminate.
  destruct (PyStr.split s) as [|word rest] eqn:Hsplit; simpl; [discriminate|].
  destruct (requests_get _ _ w1) as [[resp|e] w2]; simpl; [|discriminate].
  destruct (status_code resp =? 200)%Z; simpl; [|discriminate].
  destruct (json resp) as [body|e]; simpl; [|discriminate].
  destruct (destinationEntities body) as [codes|]; simpl; [|discriminate].
  match goal with
  | |- context [record_codes ?w ?c [(?k, ?i)] ?s] =>
      destruct (record_codes_single w k c i s) as [Hs Hr];
      destruct (record_codes w c [(k, i)] s) as [[m'|e] s'] eqn:E
  end; simpl in *; intro H; [|discriminate H].
  injection H as Htext Hst. subst.
  destruct Hr as [[inner' Hok] | [Hno _]]; [|discriminate].
  injection Hok as ->.
  exists s, word, rest, inner', t.
  repeat rewrite <- app_assoc. simpl. auto.
Qed.

(** [C1] (the example of the specification, on the code).  For the input
    "fever, cough", with the search for "fever" answered by 200 and the
    entity MG26, the lookup does strip the comma, does query "fever" first
    and never queries "cough"; but it does not return the mapping
    [{"fever": {"MG26": ...}}]: the key was entered as "fever," before the
    comma was removed, so recording the code raises [KeyError('fever')].
    Without the comma the same answer gives the mapping of the claim. *)
Theorem C1_fever_comma_cough_raises_KeyError :
  let world := Scenario.externals (Scenario.lookup_world Scenario.search_fever) in
  let out := @query_icd_11_api world (PyString "fever, cough") (Scenario.start _) in
  PyStr.split "fever, cough" = ["fever,"; "cough"] /\
  PyStr.replace_comma "fever," = "fever" /\
  Scenario.search_fever (search_url "fever") = Scenario.found [Scenario.MG26] /\
  filter is_get (trace (snd out))
  = [EvGet (search_url "fever") (search_headers "tok")] /\
  fst out = Raise (KeyError "fever") /\
  fst out <> Ok (Some (Json.dumps [("fever", [(Some "MG26", Some "http://id.who.int/icd/1")])])) /\
  fst (@query_icd_11_api world (PyString "fever cough") (Scenario.start _))
  = Ok (Some (Json.dumps [("fever", [(Some "MG26", Some "http://id.who.int/icd/1")])])).
Proof.
  cbv zeta. repeat split; try (vm_compute; reflexivity).
  vm_compute. discriminate.
Qed.

(** [C2], as the code has it.  When the search for the first token is
    answered by a status other than 200, the lookup ends at once and
    returns [None]: not the dump of an empty mapping, and with no search
    for a later token.  [None] says neither which token failed nor with
    which status. *)
Theorem C2_first_token_not_200_returns_None
        (input word : string) (rest : list string) (st : State)
        (t : string) (w1 : World) (resp : Response) (w2 : World) :
  PyStr.split input = word :: rest ->
  token_granted (world st) t w1 ->
  search_answers word t w1 resp w2 ->
  status_code resp <> 200%Z ->
  let out := query_icd_11_api (PyString input) st in
  fst out = Ok None /\
  fst out <> Ok (Some (Json.dumps [])) /\
  world (snd out) = w2 /\
  events_since st (snd out)
  = [EvCall "query_icd_11_api" (PyString input);
     EvPost TOKEN_ENDPOINT payload;
     EvGet (search_url (PyStr.replace_comma word)) (search_headers t)].
Proof.
  intros Hsplit Htok Hget Hstatus out. subst out.
  rewrite (lookup_not_200 _ _ _ _ _ _ _ _ Hsplit Htok Hget Hstatus).
  unfold events_since. simpl. rewrite skipn_past.
  repeat split; try reflexivity. discriminate.
Qed.

(** [C3].  A lookup that succeeds returns the dump of a mapping whose keys
    are among the whitespace-split tokens of the input and which has at
    most one entry; it has made one search only, for the first token
    (commas removed), and none for a later token. *)
Theorem C3_success_maps_first_token_only
        (input : string) (st st' : State) (text : string) :
  query_icd_11_api (PyString input) st = (Ok (Some text), st') ->
  exists (m : CodeMappings) (word : string) (rest : list string) (t : string),
    text = Json.dumps m /\
    (forall k, In k (Dict.keys m) -> In k (PyStr.split input)) /\
    (length m <= 1)%nat /\
    PyStr.split input = word :: rest /\
    Dict.keys m = [word] /\
    filter is_get (events_since st st')
    = [EvGet (search_url (PyStr.replace_comma word)) (search_headers t)].
Proof.
  intro H. apply lookup_success in H.
  destruct H as (s & word & rest & codes & t & Hin & Hsplit & Htext & _ & Htrace).
  injection Hin as <-.
  exists [(word, codes)], word, rest, t.
  unfold events_since. rewrite Htrace, skipn_past, Hsplit. simpl.
  repeat split; auto.
  intros k [<- | []]. left. reflexivity.
Qed.

(** [C10].  On an input that is empty or made of whitespace only, the
    lookup still asks for a token, makes no search and returns [None]: the
    very value a first search answered by a status other than 200 gives. *)
Theorem C10_blank_input_returns_None
        (input : string) (st : State) (t : string) (w1 : World) :
  PyStr.all_chars PyStr.is_space input = true ->
  token_granted (world st) t w1 ->
  let out := query_icd_11_api (PyString input) st in
  fst out = Ok None /\
  filter is_post (events_since st (snd out)) = [EvPost TOKEN_ENDPOINT payload] /\
  filter is_get (events_since st (snd out)) = [] /\
  forall (input' word : string) (rest : list string) (st' : State)
         (t' : string) (w1' : World) (resp : Response) (w2' : World),
    PyStr.split input' = word :: rest ->
    token_granted (world st') t' w1' ->
    search_answers word t' w1' resp w2' ->
    status_code resp <> 200%Z ->
    fst (query_icd_11_api (PyString input') st') = fst out.
Proof.
  intros Hblank Htok out. subst out.
  rewrite (lookup_blank _ _ _ _ Hblank Htok).
  unfold events_since. simpl. rewrite skipn_past. simpl.
  repeat split; try reflexivity.
  intros input' word rest st' t' w1' resp w2' Hsplit Htok' Hget Hstatus.
  rewrite (lookup_not_200 _ _ _ _ _ _ _ _ Hsplit Htok' Hget Hstatus).
  reflexivity.
Qed.

End Lookup.

(** [C2] as the specification words it fails: the value returned after a
    failed search is the same [None] for "aspirin" answered by 500 and for
    "fever" answered by 404, so nothing read off that value can be the
    failed token and its status. *)
Lemma C2_None_carries_neither_token_nor_status :
  let run1 :=
    fst (@query_icd_11_api
           (Scenario.externals (Scenario.lookup_world (Scenario.search_status 500)))
           (PyString "aspirin overdose") (Scenario.start _)) in
  let run2 :=
    fst (@query_icd_11_api
           (Scenario.externals (Scenario.lookup_world (Scenario.search_status 404)))
           (PyString "fever") (Scenario.start _)) in
  run1 = Ok None /\ run2 = Ok None /\
  ~ exists carried : Result (option string) -> string * Z,
      carried run1 = ("aspirin", 500%Z) /\ carried run2 = ("fever", 404%Z).
Proof.
  cbv zeta.
  assert (H1 : fst (@query_icd_11_api
           (Scenario.externals (Scenario.lookup_world (Scenario.search_status 500)))
           (PyString "aspirin overdose") (Scenario.start _)) = Ok None)
    by (vm_compute; reflexivity).
  assert (H2 : fst (@query_icd_11_api
           (Scenario.externals (Scenario.lookup_world (Scenario.search_status 404)))
           (PyString "fever") (Scenario.start _)) = Ok None)
    by (vm_compute; reflexivity).
  rewrite H1, H2. repeat split.
  intros [carried [Ha Hb]]. rewrite Ha in Hb. discriminate Hb.
Qed.

Lemma C2_witness :
  let E := Scenario.externals (Scenario.lookup_world (Scenario.search_status 500)) in
  let st := Scenario.start (Scenario.lookup_world (Scenario.search_status 500)) in
  let out := @query_icd_11_api E (PyString "aspirin overdose") st in
  PyStr.split "aspirin overdose" = ["aspirin"; "overdose"] /\
  fst out = Ok None /\
  fst out <> Ok (Some (Json.dumps [])) /\
  @world E (snd out) = 0%nat /\
  @events_since E st (snd out)
  = [EvCall "query_icd_11_api" (PyString "aspirin overdose");
     EvPost TOKEN_ENDPOINT (@payload E);
     EvGet (search_url "aspirin") (search_headers "tok")].
Proof.
  cbv zeta. split; [reflexivity|].
  apply (@C2_first_token_not_200_returns_None
           (Scenario.externals (Scenario.lookup_world (Scenario.search_status 500)))
           "aspirin overdose" "aspirin" ["overdose"] (Scenario.start _) "tok" 0%nat
           {| status_code := 500; json := Raise (OtherError "Expecting value") |} 0%nat).
  - reflexivity.
  - reflexivity.
  - reflexivity.
  - simpl. discriminate.
Defined.

Lemma C3_witness :
  let E := Scenario.externals (Scenario.lookup_world Scenario.search_fever) in
  let st := Scenario.start (Scenario.lookup_world Scenario.search_fever) in
  exists (m : CodeMappings) (word : string) (rest : list string) (t : string),
    Json.dumps [("fever", [(Some "MG26", Some "http://id.who.int/icd/1")])] = Json.dumps m /\
    (forall k, In k (Dict.keys m) -> In k (PyStr.split "fever cough")) /\
    (length m <= 1)%nat /\
    PyStr.split "fever cough" = word :: rest /\
    Dict.keys m = [word] /\
    filter is_get (@events_since E st (snd (@query_icd_11_api E (PyString "fever cough") st)))
    = [EvGet (search_url (PyStr.replace_comma word)) (search_headers t)].
Proof.
  cbv zeta.
  apply (@C3_success_maps_first_token_only
           (Scenario.externals (Scenario.lookup_world Scenario.search_fever))
           "fever cough" (Scenario.start _)).
  vm_compute. reflexivity.
Defined.

Lemma C10_witness :
  let E := Scenario.externals (Scenario.lookup_world Scenario.search_fever) in
  let st := Scenario.start (Scenario.lookup_world Scenario.search_fever) in
  let out := @query_icd_11_api E (PyString "  ") st in
  PyStr.all_chars PyStr.is_space "  " = true /\
  fst out = Ok None /\
  filter is_post (@events_since E st (snd out)) = [EvPost TOKEN_ENDPOINT (@payload E)] /\
  filter is_get (@events_since E st (snd out)) = [].
Proof.
  cbv zeta. split; [reflexivity|].
  destruct (@C10_blank_input_returns_None
              (Scenario.externals (Scenario.lookup_world Scenario.search_fever))
              "  " (Scenario.start _) "tok" 0%nat) as (H1 & H2 & H3 & _).
  - reflexivity.
  - reflexivity.
  - repeat split; assumption.
Defined.

(* ===================================================================== *)
(** ** [generate_response]: the two ways a turn goes well *)
(* ===================================================================== *)

Section Turn.
Context `{Ext : Externals}.

#[local] Arguments query_icd_11_api : simpl never.
#[local] Arguments search_url : simpl never.
#[local] Arguments tools : simpl never.

Ltac run_turn :=
  unfold generate_response, try_block, first_request, after_first_request,
    tool_branch, read_usage, usage_of, try, env, get_messages, append_message,
    index0, args_get, bind, external, lift, ret, raise; simpl.

Ltac use_configured H :=
  let Hkey := fresh "Hkey" in
  let Hend := fresh "Hend" in
  let Hmodel := fresh "Hmodel" in
  destruct H as (Hkey & Hend & Hmodel);
  destruct (Dict.get String.eqb "AZURE_OPENAI_KEY" ENV); [|contradiction];
  destruct (Dict.get String.eqb "AZURE_OPENAI_ENDPOINT" ENV); [|contradiction];
  clear Hkey Hend.

(** The run of a turn whose first reply is a direct answer. *)
Lemma direct_answer_run
      (prompt : string) (st : State) (model : string)
      (completion : Completion) (w1 : World) (u : Usage) (choice : Choice)
      (others : list Choice) :
  configured model ->
  chat_completions_create (first_chat_request model prompt st) (world st)
  = (Ok completion, w1) ->
  usage completion = Some u ->
  choices completion = choice :: others ->
  finish_reason choice <> "tool_calls" ->
  generate_response prompt st
  = (Ok (content (message choice),
         Some (total_tokens u),
         Some (prompt_tokens u),
         Some (completion_tokens u)),
     {| world := w1;
        session := with_messages (messages (session st) ++ [user_message prompt])
                                 (session st);
        trace := trace st ++ [EvChat (first_chat_request model prompt st)] |}).
Proof.
  intros Hconf Hchat Husage Hchoices Hfinish.
  unfold first_chat_request, user_message in *.
  run_turn. use_configured Hconf. simpl. rewrite Hmodel. simpl.
  rewrite Hchat. simpl. rewrite Hchoices. simpl.
  apply String.eqb_neq in Hfinish. rewrite Hfinish. simpl.
  rewrite Husage. reflexivity.
Qed.

(** [C6].  When the first reply is a direct answer, the turn makes that
    one chat request and nothing else (the capability is not invoked, no
    token is asked for, nothing is searched) and returns the content of
    the reply with the usage of that one call, [u], which the reply
    carries. *)
Theorem C6_direct_answer_never_invokes_capability
        (prompt : string) (st : State) (model : string)
        (completion : Completion) (w1 : World) (u : Usage) (choice : Choice)
        (others : list Choice) :
  configured model ->
  chat_completions_create (first_chat_request model prompt st) (world st)
  = (Ok completion, w1) ->
  usage completion = Some u ->
  choices completion = choice :: others ->
  finish_reason choice <> "tool_calls" ->
  let out := generate_response prompt st in
  fst out = Ok (content (message choice),
                Some (total_tokens u),
                Some (prompt_tokens u),
                Some (completion_tokens u)) /\
  events_since st (snd out) = [EvChat (first_chat_request model prompt st)] /\
  filter is_call (events_since st (snd out)) = [].
Proof.
  intros Hconf Hchat Husage Hchoices Hfinish out. subst out.
  rewrite (direct_answer_run _ _ _ _ _ _ _ _ Hconf Hchat Husage Hchoices Hfinish).
  unfold events_since. simpl. rewrite skipn_past. auto.
Qed.

Lemma searches_only (evs : list Event) :
  forallb is_get evs = true ->
  filter is_call evs = [] /\ filter is_chat evs = [].
Proof.
  induction evs as [|ev evs IH]; simpl; intro H; [auto|].
  apply andb_true_iff in H as [Hev Hevs].
  destruct ev; try discriminate. simpl. auto.
Qed.

(** The run of a turn whose first reply asks for the capability, when
    nothing goes wrong on the way. *)
Lemma capability_run
      (prompt : string) (st : State) (model : string)
      (completion : Completion) (w1 : World) (u : Usage) (choice : Choice)
      (others : list Choice) (tool_call : ToolCall) (more : list ToolCall)
      (args : list (string * PyVal)) (response : option string) (s2 : State)
      (second : Completion) (w3 : World) (second_choice : Choice)
      (others2 : list Choice) :
  configured model ->
  chat_completions_create (first_chat_request model prompt st) (world st)
  = (Ok completion, w1) ->
  usage completion = Some u ->
  choices completion = choice :: others ->
  finish_reason choice = "tool_calls" ->
  tool_calls (message choice) = Some (tool_call :: more) ->
  fn_name (tc_function tool_call) = "query_icd_11_api" ->
  json_loads (fn_arguments (tc_function tool_call)) = Ok (PyDict args) ->
  query_icd_11_api (input_of args) (state_at_call model prompt st w1 choice)
  = (Ok response, s2) ->
  chat_completions_create
    (second_chat_request model prompt st choice tool_call response) (world s2)
  = (Ok second, w3) ->
  choices second = second_choice :: others2 ->
  generate_response prompt st
  = (Ok (content (message second_choice),
         Some (total_tokens u),
         Some (prompt_tokens u),
         Some (completion_tokens u)),
     {| world := w3;
        session := with_messages
                     (req_messages
                        (second_chat_request model prompt st choice tool_call response))
                     (session st);
        trace := trace s2 ++
                 [EvChat (second_chat_request model prompt st choice tool_call response)] |}).
Proof.
  intros Hconf Hchat Husage Hchoices Hfinish Hcalls Hname Hloads Hquery Hchat2
         Hchoices2.
  destruct (lookup_effects (input_of args) (state_at_call model prompt st w1 choice))
    as [Hsession _].
  rewrite Hquery in Hsession. simpl in Hsession.
  unfold second_chat_request, state_at_call, first_chat_request, user_message,
    input_of in *.
  run_turn. use_configured Hconf. simpl. rewrite Hmodel. simpl.
  rewrite Hchat. simpl. rewrite Hchoices. simpl.
  rewrite Hfinish. simpl. rewrite Hcalls. simpl. rewrite Hname. simpl.
  rewrite Hloads. simpl.
  unfold with_messages in *. simpl in *.
  rewrite <- app_assoc. simpl.
  rewrite Hname in Hchat2.
  destruct (Dict.get String.eqb "input" args); simpl;
    rewrite Hquery; simpl; rewrite Hsession; simpl;
    rewrite <- app_assoc; simpl; rewrite Hchat2; simpl; rewrite Hchoices2; simpl;
    rewrite Husage; reflexivity.
Qed.

(** [C5].  When the first reply asks for capability invocations and
    nothing fails on the way, the turn invokes the capability once, with
    the arguments of the first request listed, whatever else is listed;
    it then asks the LLM again, without tool declarations, and returns
    the content of that second reply with the usage of the first, [u],
    which the first reply carries. *)
Theorem C5_one_invocation_then_answer_with_first_usage
        (prompt : string) (st : State) (model : string)
        (completion : Completion) (w1 : World) (u : Usage) (choice : Choice)
        (others : list Choice) (tool_call : ToolCall) (more : list ToolCall)
        (args : list (string * PyVal)) (response : option string) (s2 : State)
        (second : Completion) (w3 : World) (second_choice : Choice)
        (others2 : list Choice) :
  configured model ->
  chat_completions_create (first_chat_request model prompt st) (world st)
  = (Ok completion, w1) ->
  usage completion = Some u ->
  choices completion = choice :: others ->
  finish_reason choice = "tool_calls" ->
  tool_calls (message choice) = Some (tool_call :: more) ->
  fn_name (tc_function tool_call) = "query_icd_11_api" ->
  json_loads (fn_arguments (tc_function tool_call)) = Ok (PyDict args) ->
  query_icd_11_api (input_of args) (state_at_call model prompt st w1 choice)
  = (Ok response, s2) ->
  chat_completions_create
    (second_chat_request model prompt st choice tool_call response) (world s2)
  = (Ok second, w3) ->
  choices second = second_choice :: others2 ->
  let out := generate_response prompt st in
  fst out = Ok (content (message second_choice),
                Some (total_tokens u),
                Some (prompt_tokens u),
                Some (completion_tokens u)) /\
  filter is_call (events_since st (snd out))
  = [EvCall "query_icd_11_api" (input_of args)] /\
  filter is_chat (events_since st (snd out))
  = [EvChat (first_chat_request model prompt st);
     EvChat (second_chat_request model prompt st choice tool_call response)] /\
  req_tools (second_chat_request model prompt st choice tool_call response) = None.
Proof.
  intros Hconf Hchat Husage Hchoices Hfinish Hcalls Hname Hloads Hquery Hchat2
         Hchoices2 out.
  subst out.
  rewrite (capability_run _ _ _ _ _ _ _ _ _ _ _ _ _ _ _ _ _
             Hconf Hchat Husage Hchoices Hfinish Hcalls Hname Hloads Hquery Hchat2
             Hchoices2).
  destruct (lookup_effects (input_of args) (state_at_call model prompt st w1 choice))
    as [_ (evs & Htrace & Hgets & _)].
  rewrite Hquery in Htrace. simpl in Htrace.
  destruct (searches_only evs Hgets) as [Hno_call Hno_chat].
  unfold events_since. simpl. rewrite Htrace.
  repeat rewrite <- app_assoc. rewrite skipn_past. simpl.
  rewrite !filter_app, Hno_call, Hno_chat. simpl. auto.
Qed.

End Turn.

(* ===================================================================== *)
(** ** What a turn does to the conversation, however it ends *)
(* ===================================================================== *)

Section Growth.
Context `{Ext : Externals}.

Lemma extends_refl (s : State) : extends s s.
Proof.
  split; [repeat split|].
  exists [], []. rewrite !app_nil_r. repeat split. intros req [].
Qed.

Lemma extends_trans (a b c : State) : extends a b -> extends b c -> extends a c.
Proof.
  intros [(G1 & P1 & N1 & T1) (ms1 & evs1 & M1 & X1 & E1 & C1)]
         [(G2 & P2 & N2 & T2) (ms2 & evs2 & M2 & X2 & E2 & C2)].
  split.
  - repeat split; congruence.
  - exists (ms1 ++ ms2), (evs1 ++ evs2). repeat split.
    + rewrite M2, M1, app_assoc. reflexivity.
    + rewrite forallb_app, X1, X2. reflexivity.
    + rewrite E2, E1, app_assoc. reflexivity.
    + intros req Hin. apply in_app_or in Hin as [Hin | Hin].
      * apply C1. exact Hin.
      * destruct (C2 req Hin) as [ms' Hreq].
        exists (ms1 ++ ms'). rewrite Hreq, M1, app_assoc. reflexivity.
Qed.

Lemma extending_ret {A} (a : A) : extending (ret a).
Proof. intro s. apply extends_refl. Qed.

Lemma extending_raise {A} (e : exn) : extending (@raise _ A e).
Proof. intro s. apply extends_refl. Qed.

Lemma extending_lift {A} (r : Result A) : extending (lift r).
Proof. intro s. apply extends_refl. Qed.

Lemma extending_env (key : string) : extending (env key).
Proof.
  intro s. unfold env. destruct (Dict.get String.eqb key ENV); apply extends_refl.
Qed.

Lemma extending_index0 {A} (xs : list A) : extending (index0 xs).
Proof. intro s. destruct xs; apply extends_refl. Qed.

Lemma extending_bind {A B} (m : M A) (k : A -> M B) :
  extending m -> (forall a, extending (k a)) -> extending (bind m k).
Proof.
  intros Hm Hk s. unfold bind. specialize (Hm s).
  destruct (m s) as [[a|e] s']; simpl in *.
  - eapply extends_trans; [exact Hm | apply Hk].
  - exact Hm.
Qed.

Lemma extending_try {A} (m : M A) : extending m -> extending (try m).
Proof.
  intros Hm s. unfold try. specialize (Hm s).
  destruct (m s) as [r s']. exact Hm.
Qed.

Lemma extending_append (m : Message) :
  exchange m = true -> extending (append_message m).
Proof.
  intros Hm s. split; [repeat split|].
  exists [m], []. simpl. rewrite Hm, app_nil_r. repeat split. intros req [].
Qed.

(** A chat request carries the conversation of the moment. *)
Lemma extending_chat (model : string) (declared : option (list ToolDecl)) :
  extending
    (msgs <- get_messages ;;
     external (EvChat {| req_model := model; req_messages := msgs;
                         req_tools := declared |})
              (chat_completions_create
                 {| req_model := model; req_messages := msgs;
                    req_tools := declared |})).
Proof.
  intro s. unfold bind, get_messages, external. simpl.
  destruct (chat_completions_create _ (world s)) as [r w]. simpl.
  split; [repeat split|].
  eexists [], [_]. simpl. rewrite app_nil_r. repeat split.
  intros req [Heq | []]. injection Heq as <-. simpl.
  exists []. rewrite app_nil_r. reflexivity.
Qed.

Lemma extending_chat_then {B} (model : string)
      (declared : option (list ToolDecl)) (k : Completion -> M B) :
  (forall completion, extending (k completion)) ->
  extending
    (msgs <- get_messages ;;
     completion <-
       external (EvChat {| req_model := model; req_messages := msgs;
                           req_tools := declared |})
                (chat_completions_create
                   {| req_model := model; req_messages := msgs;
                      req_tools := declared |}) ;;
     k completion).
Proof.
  intros Hk s.
  pose proof (extending_chat model declared s) as Hchat.
  unfold bind, get_messages, external in *. simpl in *.
  destruct (chat_completions_create _ (world s)) as [[completion|e] w];
    simpl in *.
  - eapply extends_trans; [exact Hchat | apply Hk].
  - exact Hchat.
Qed.

Lemma extending_query (input : PyVal) : extending (query_icd_11_api input).
Proof.
  intro s. destruct (lookup_effects input s) as [Hsession (evs & Htrace & Hgets & _)].
  split.
  - rewrite Hsession. repeat split.
  - exists [], (EvCall "query_icd_11_api" input :: EvPost TOKEN_ENDPOINT payload :: evs).
    rewrite Hsession, app_nil_r. repeat split; [exact Htrace|].
    intros req [Heq | [Heq | Hin]]; try discriminate.
    destruct (searches_only evs Hgets) as [_ Hno_chat].
    assert (Hf : In (EvChat req) (filter is_chat evs))
      by (apply filter_In; split; [exact Hin | reflexivity]).
    rewrite Hno_chat in Hf. destruct Hf.
Qed.

(** Looking the capability up by name gives [query_icd_11_api] or
    raises. *)
Lemma extending_dispatch {B} (name : string)
      (k : (PyVal -> M (option string)) -> M B) :
  extending (k query_icd_11_api) ->
  extending
    (bind match Dict.get String.eqb name available_functions with
          | Some f => ret f
          | None => raise (KeyError name)
          end k).
Proof.
  intros Hk. unfold available_functions. simpl.
  destruct (String.eqb name "query_icd_11_api").
  - intro s. unfold bind, ret. simpl. apply Hk.
  - intro s. unfold bind, raise. simpl. apply extends_refl.
Qed.

Lemma extending_args_get (function_args : PyVal) (key : string) :
  extending (args_get function_args key).
Proof.
  intro s. unfold args_get.
  destruct function_args; try apply extends_refl.
  destruct (Dict.get String.eqb key items); apply extends_refl.
Qed.

Lemma extending_usage_of (completion : Completion) :
  extending (usage_of completion).
Proof.
  intro s. unfold usage_of. destruct (usage completion); apply extends_refl.
Qed.

Ltac grow :=
  repeat first
    [ apply extending_ret | apply extending_args_get | apply extending_usage_of | apply extending_raise | apply extending_lift
    | apply extending_env | apply extending_index0
    | apply extending_query | apply extending_chat
    | apply extending_chat_then; intros ?
    | apply extending_append; reflexivity
    | apply extending_try
    | apply extending_dispatch
    | apply extending_bind; [| intros ?]
    | match goal with
      | |- extending (match ?x with _ => _ end) => destruct x
      end ].

Lemma extending_first_request : extending first_request.
Proof. unfold first_request. cbv zeta. grow. Qed.

Lemma extending_tool_branch (completion : Completion) (choice : Choice) :
  extending (tool_branch completion choice).
Proof. unfold tool_branch. cbv zeta. grow. Qed.

Lemma extending_after_first_request (completion : Completion) :
  extending (after_first_request completion).
Proof.
  unfold after_first_request. cbv zeta.
  apply extending_bind; [apply extending_index0 | intros choice].
  destruct (String.eqb (finish_reason choice) "tool_calls").
  - apply extending_bind; [apply extending_tool_branch | intros reply].
    apply extending_ret.
  - apply extending_ret.
Qed.

Lemma extending_try_block : extending try_block.
Proof.
  unfold try_block.
  apply extending_bind; [apply extending_try, extending_first_request|].
  intros [completion|e]; [|grow].
  apply extending_bind; [apply extending_try, extending_after_first_request|].
  intros [exit|e]; grow.
Qed.

Lemma extending_read_usage (completion : option Completion)
      (response : option string) :
  extending (read_usage completion response).
Proof. unfold read_usage. grow. Qed.

(** The state right after line 67. *)
Lemma after_line_67 (prompt : string) (s : State) :
  extends (snd (append_message (user_message prompt) s))
          (snd (generate_response prompt s)).
Proof.
  unfold generate_response, user_message, bind at 1. simpl.
  match goal with
  | |- extends ?s1 (snd (?m ?s1)) => assert (H : extending m); [|apply H]
  end.
  apply extending_bind; [apply extending_try_block|].
  intros [completion exit]. destruct exit; cbv zeta.
  - apply extending_ret.
  - apply extending_read_usage.
  - apply extending_read_usage.
Qed.

(** A turn, however it ends, leaves the conversation it found, then the
    user message, then at most the messages of a capability exchange; and
    every chat request it made was sent the conversation up to and
    including that user message. *)
Lemma turn_grows (prompt : string) (s : State) :
  same_lists (session s) (session (snd (generate_response prompt s))) /\
  exists ms evs,
    messages (session (snd (generate_response prompt s)))
    = messages (session s) ++ user_message prompt :: ms /\
    forallb exchange ms = true /\
    trace (snd (generate_response prompt s)) = trace s ++ evs /\
    forall req, In (EvChat req) evs ->
                exists ms', req_messages req
                            = messages (session s) ++ user_message prompt :: ms'.
Proof.
  destruct (after_line_67 prompt s) as [Hsame (ms & evs & Hms & Hx & Hevs & Hreq)].
  simpl in *. split; [exact Hsame|].
  exists ms, evs. rewrite Hms, app_cons_assoc. repeat split; auto.
  intros req Hin. destruct (Hreq req Hin) as [ms' Heq].
  exists ms'. rewrite Heq, app_cons_assoc. reflexivity.
Qed.

End Growth.

(* ===================================================================== *)
(** ** Turns that fail *)
(* ===================================================================== *)

Section Faults.
Context `{Ext : Externals}.

(** Lines 110-113 with [completion] bound: they return the counters of
    its usage, or raise when it has none; the state is not touched. *)
Lemma read_usage_some (completion : Completion) (u : Usage)
      (response : option string) (s : State) :
  usage completion = Some u ->
  read_usage (Some completion) response s
  = (Ok (response, Some (total_tokens u), Some (prompt_tokens u),
         Some (completion_tokens u)), s).
Proof. intro H. unfold read_usage, usage_of, bind, ret. rewrite H. reflexivity. Qed.

Lemma read_usage_none (completion : Completion) (response : option string)
      (s : State) :
  usage completion = None ->
  read_usage (Some completion) response s = (Raise missing_usage, s).
Proof. intro H. unfold read_usage, usage_of, bind, raise. rewrite H. reflexivity. Qed.

Lemma read_usage_state (completion : option Completion)
      (response : option string) (s : State) :
  snd (read_usage completion response s) = s.
Proof.
  unfold read_usage, usage_of, bind, ret, raise.
  destruct completion as [completion|]; [|reflexivity].
  destruct (usage completion); reflexivity.
Qed.

(** A turn, seen from the first chat request on. *)
Lemma turn_unfold (prompt : string) (st : State) (model : string) :
  configured model ->
  generate_response prompt st
  = match chat_completions_create (first_chat_request model prompt st) (world st) with
    | (Raise e, w1) => (Raise unbound_completion, state_at_reply model prompt st w1)
    | (Ok completion, w1) =>
        match after_first_request completion (state_at_reply model prompt st w1) with
        | (Ok (Returned r), s2) => (Ok r, s2)
        | (Ok (FellThrough response), s2) =>
            read_usage (Some completion) response s2
        | (Ok (Caught e), s2) | (Raise e, s2) =>
            read_usage (Some completion) (Some (error_text e)) s2
        end
    end.
Proof.
  intros (Hkey & Hend & Hmodel).
  unfold generate_response, try_block, first_request, try, env, get_messages,
    append_message, bind, external, ret, raise, state_at_reply,
    first_chat_request, user_message, unbound_completion.
  simpl.
  destruct (Dict.get String.eqb "AZURE_OPENAI_KEY" ENV); [|contradiction].
  destruct (Dict.get String.eqb "AZURE_OPENAI_ENDPOINT" ENV); [|contradiction].
  rewrite Hmodel. simpl.
  destruct (chat_completions_create _ (world st)) as [[completion|e] w1]; simpl.
  - destruct (after_first_request completion _) as [[[r|response|e]|e] s2];
      reflexivity.
  - reflexivity.
Qed.

(** [C4], on the code.  A fault of the first chat request is caught, but
    lines 110-112 then read the local variable [completion], which was
    never bound: the turn ends by raising [UnboundLocalError] to its
    caller.  A fault met later in the turn (choosing the reply, invoking
    the capability, the second chat request) is caught and gives the text
    with the description of the error, but the three counters set to
    [None] by the handler are assigned again from the first reply: its
    usage [u] is reported, not absent. *)
Theorem C4_fault_escapes_or_keeps_usage
        (prompt : string) (st : State) (model : string) :
  configured model ->
  (forall (e : exn) (w1 : World),
      chat_completions_create (first_chat_request model prompt st) (world st)
      = (Raise e, w1) ->
      fst (generate_response prompt st) = Raise unbound_completion) /\
  (forall (completion : Completion) (w1 : World) (u : Usage) (e : exn)
          (s2 : State),
      chat_completions_create (first_chat_request model prompt st) (world st)
      = (Ok completion, w1) ->
      usage completion = Some u ->
      after_first_request completion (state_at_reply model prompt st w1)
      = (Raise e, s2) ->
      fst (generate_response prompt st)
      = Ok (Some (error_text e),
            Some (total_tokens u),
            Some (prompt_tokens u),
            Some (completion_tokens u))).
Proof.
  intro Hconf. split.
  - intros e w1 Hchat. rewrite (turn_unfold _ _ _ Hconf), Hchat. reflexivity.
  - intros completion w1 u e s2 Hchat Husage Hafter.
    rewrite (turn_unfold _ _ _ Hconf), Hchat, Hafter.
    rewrite (read_usage_some _ _ _ _ Husage). reflexivity.
Qed.

(** With the three keys in place a turn begins with the first chat
    request. *)
Lemma turn_begins_with_chat (prompt : string) (st : State) (model : string) :
  configured model ->
  exists evs,
    trace (snd (generate_response prompt st))
    = trace st ++ EvChat (first_chat_request model prompt st) :: evs.
Proof.
  intro Hconf. rewrite (turn_unfold _ _ _ Hconf).
  destruct (chat_completions_create _ (world st)) as [[completion|e] w1].
  - destruct (extending_after_first_request completion
                (state_at_reply model prompt st w1))
      as [_ (ms & evs & _ & _ & Htrace & _)].
    destruct (after_first_request completion _) as [[[r|response|e]|e] s2];
      rewrite ?read_usage_state; simpl in *; exists evs;
      rewrite Htrace, app_cons_assoc; reflexivity.
  - exists []. reflexivity.
Qed.

(** [C8].  However a turn ends, by a return or by an exception, the user
    message appended at line 67 is still in the conversation, right after
    what was there before; and every chat request of a later turn that
    starts from that conversation is sent it (with the three keys in
    place such a turn does begin with a chat request). *)
Theorem C8_user_message_stays (prompt : string) (st : State) :
  let st1 := snd (generate_response prompt st) in
  (exists ms, messages (session st1)
              = messages (session st) ++ user_message prompt :: ms) /\
  forall (next : string) (st2 : State),
    messages (session st2) = messages (session st1) ->
    let st3 := snd (generate_response next st2) in
    (forall req, In (EvChat req) (events_since st2 st3) ->
                 In (user_message prompt) (req_messages req)) /\
    (forall model, configured model ->
                   exists req evs, events_since st2 st3 = EvChat req :: evs /\
                                   In (user_message prompt) (req_messages req)).
Proof.
  cbv zeta.
  destruct (turn_grows prompt st) as [_ (ms & evs & Hms & _ & _ & _)].
  split; [exists ms; exact Hms|].
  intros next st2 Hsame.
  destruct (turn_grows next st2) as [_ (ms2 & evs2 & _ & _ & Htrace & Hreqs)].
  assert (Hall : forall req, In (EvChat req) (events_since st2 (snd (generate_response next st2))) ->
                             In (user_message prompt) (req_messages req)).
  { intros req Hin. unfold events_since in Hin. rewrite Htrace, skipn_past in Hin.
    destruct (Hreqs req Hin) as [ms' Hreq].
    rewrite Hreq, Hsame, Hms. apply in_or_app. left.
    apply in_or_app. right. left. reflexivity. }
  split; [exact Hall|].
  intros model Hconf.
  destruct (turn_begins_with_chat next st2 model Hconf) as [evs' Hbegin].
  exists (first_chat_request model next st2), evs'.
  assert (Heq : events_since st2 (snd (generate_response next st2))
                = EvChat (first_chat_request model next st2) :: evs')
    by (unfold events_since; rewrite Hbegin, skipn_past; reflexivity).
  split; [exact Heq|]. apply Hall. rewrite Heq. left. reflexivity.
Qed.

End Faults.

(* ===================================================================== *)
(** ** The script: sessions, turns and "Clear Conversation" *)
(* ===================================================================== *)

Section Script.
Context `{Ext : Externals}.

(** Lines 168-170 leave the conversation alone. *)
Lemma bookkeeping_keeps_messages (text : string) (output : option string)
      (s : State) :
  messages (session (snd
    ((update_session (append_past text) ;;;
      update_session (append_generated output) ;;;
      model <- env "AZURE_OPENAI_DEPLOYMENT_NAME" ;;
      update_session (append_model_name model)) s)))
  = messages (session s).
Proof.
  unfold bind, update_session, env. simpl.
  destruct (Dict.get String.eqb "AZURE_OPENAI_DEPLOYMENT_NAME" ENV); reflexivity.
Qed.

(** A run with "Send" pressed, seen from the turn on. *)
Lemma script_send (w : Widgets) (s : State) :
  clear_button w = false ->
  submit_button w = true ->
  PyStr.truthy (user_input w) = true ->
  script w s
  = match generate_response (user_input w) s with
    | (Ok (output, _, _, _), s1) =>
        (update_session (append_past (user_input w)) ;;;
         update_session (append_generated output) ;;;
         model <- env "AZURE_OPENAI_DEPLOYMENT_NAME" ;;
         update_session (append_model_name model)) s1
    | (Raise e, s1) => (Raise e, s1)
    end.
Proof.
  intros Hclear Hsubmit Htext. unfold script. rewrite Hclear, Hsubmit, Htext.
  unfold bind at 1. simpl. unfold bind at 1.
  destruct (generate_response (user_input w) s) as [[[[[output t] p] c]|e] s1];
    reflexivity.
Qed.

(** A run without "Clear Conversation" only adds to the conversation. *)
Lemma script_keeps_prefix (w : Widgets) (s : State) :
  clear_button w = false ->
  exists ms, messages (session (snd (script w s))) = messages (session s) ++ ms.
Proof.
  intro Hclear.
  destruct (submit_button w && PyStr.truthy (user_input w)) eqn:Hsend.
  - apply andb_true_iff in Hsend as [Hsubmit Htext].
    rewrite (script_send _ _ Hclear Hsubmit Htext).
    destruct (turn_grows (user_input w) s) as [_ (ms & evs & Hms & _)].
    destruct (generate_response (user_input w) s) as [[[[[output t] p] c]|e] s1];
      simpl in Hms.
    + rewrite bookkeeping_keeps_messages, Hms. eauto.
    + simpl. rewrite Hms. eauto.
  - unfold script. rewrite Hclear, Hsend. unfold bind, ret. simpl.
    exists []. rewrite app_nil_r. reflexivity.
Qed.

(** A run with "Clear Conversation" and without "Send". *)
Lemma script_clear (w : Widgets) (s : State) :
  clear_button w = true ->
  submit_button w = false ->
  session (snd (script w s)) = clear_conversation (seed_message w) (session s).
Proof.
  intros Hclear Hsubmit. unfold script. rewrite Hclear, Hsubmit. reflexivity.
Qed.

(** Runs without "Clear Conversation", one after the other. *)
Lemma run_scripts_keep_prefix (ws : list Widgets) :
  Forall (fun w => clear_button w = false) ws ->
  forall (s : Session) (wd : World),
  exists s' wd' ms,
    run_scripts ws (Some s) wd = (Some s', wd') /\
    messages s' = messages s ++ ms.
Proof.
  induction 1 as [|w ws Hw _ IH]; intros s wd; simpl.
  - exists s, wd, []. rewrite app_nil_r. auto.
  - unfold run_script. simpl.
    destruct (script_keeps_prefix w
                {| world := wd; session := s; trace := [] |} Hw) as [ms Hms].
    destruct (script w _) as [r st]. simpl in *.
    destruct (IH (session st) (world st)) as (s' & wd' & ms' & Hrun & Hms').
    exists s', wd', (ms ++ ms'). split; [exact Hrun|].
    rewrite Hms', Hms, app_assoc. reflexivity.
Qed.

(** [C7].  As long as "Clear Conversation" is not pressed, the runs of
    the script only add to the conversation, so the message at index 0
    stays what it was: from a new session on, the system message seeded
    by the first run, whatever the prompt box holds later.  A run in
    which "Clear Conversation" is pressed leaves a conversation of
    exactly one message, the system message made from the prompt box of
    that run.  (Streamlit runs the script once per click, so "Send" is
    not pressed in the run in which "Clear Conversation" is.) *)
Theorem C7_system_message_until_reset :
  (forall (ws : list Widgets) (s : Session) (wd : World),
      Forall (fun w => clear_button w = false) ws ->
      exists s' wd',
        run_scripts ws (Some s) wd = (Some s', wd') /\
        (exists ms, messages s' = messages s ++ ms) /\
        forall m0, nth_error (messages s) 0 = Some m0 ->
                   nth_error (messages s') 0 = Some m0) /\
  (forall (w : Widgets) (ws : list Widgets) (wd : World),
      Forall (fun w => clear_button w = false) (w :: ws) ->
      exists s' wd',
        run_scripts (w :: ws) None wd = (Some s', wd') /\
        nth_error (messages s') 0 = Some (RoleContent "system" (system_prompt w))) /\
  (forall (w : Widgets) (store : option Session) (wd : World),
      clear_button w = true ->
      submit_button w = false ->
      let s' := session (snd (run_script w store wd)) in
      messages s' = [RoleContent "system" (system_prompt w)] /\
      length (messages s') = 1%nat).
Proof.
  split; [|split].
  - intros ws s wd Hws.
    destruct (run_scripts_keep_prefix ws Hws s wd) as (s' & wd' & ms & Hrun & Hms).
    exists s', wd'. split; [exact Hrun|]. split; [eauto|].
    intros m0 H0. rewrite Hms. destruct (messages s); [discriminate H0|exact H0].
  - intros w ws wd Hall. inversion Hall as [|w' ws' Hw Hws]; subst.
    simpl. unfold run_script. simpl.
    destruct (script_keeps_prefix w
                {| world := wd;
                   session := initialise (seed_message w) None;
                   trace := [] |} Hw) as [ms Hms].
    destruct (script w _) as [r st]. simpl in *.
    destruct (run_scripts_keep_prefix ws Hws (session st) (world st))
      as (s' & wd' & ms' & Hrun & Hms').
    exists s', wd'. split; [exact Hrun|].
    rewrite Hms', Hms. reflexivity.
  - intros w store wd Hclear Hsubmit. cbv zeta. unfold run_script.
    rewrite (script_clear _ _ Hclear Hsubmit). simpl. auto.
Qed.

End Script.

(* ===================================================================== *)
(** ** The statements on scripted worlds *)
(* ===================================================================== *)

Lemma scenario_configured (sc : Scenario.Scripted) :
  Scenario.env_file sc = Scenario.env_ok ->
  @configured (Scenario.externals sc) "gpt-4".
Proof.
  intro H. unfold configured. simpl. rewrite H.
  repeat split; simpl; discriminate.
Defined.


Lemma C4_witness :
  fst (@generate_response (Scenario.externals Scenario.llm_down) "code fever"
         (Scenario.start _))
  = Raise unbound_completion /\
  fst (@generate_response (Scenario.externals Scenario.auth_refused) "code fever"
         (Scenario.start _))
  = Ok (Some "The API could not handle this content: 401 Client Error: Unauthorized",
        Some 30%Z, Some 20%Z, Some 10%Z).
Proof.
  split.
  - apply (proj1 (@C4_fault_escapes_or_keeps_usage
                    (Scenario.externals Scenario.llm_down) "code fever"
                    (Scenario.start _) "gpt-4"
                    (scenario_configured Scenario.llm_down eq_refl))
                 (OtherError "Connection error.") 1%nat).
    reflexivity.
  - apply (proj2 (@C4_fault_escapes_or_keeps_usage
                    (Scenario.externals Scenario.auth_refused) "code fever"
                    (Scenario.start _) "gpt-4"
                    (scenario_configured Scenario.auth_refused eq_refl))
                 Scenario.asks_lookup 1%nat
                 {| total_tokens := 30; prompt_tokens := 20; completion_tokens := 10 |}
                 (OtherError "401 Client Error: Unauthorized")
                 (snd (@after_first_request (Scenario.externals Scenario.auth_refused)
                         Scenario.asks_lookup
                         (@state_at_reply (Scenario.externals Scenario.auth_refused)
                            "gpt-4" "code fever" (Scenario.start _) 1%nat)))).
    + reflexivity.
    + reflexivity.
    + vm_compute. reflexivity.
Defined.

Lemma C5_witness :
  let E := Scenario.externals Scenario.code_fever in
  let out := @generate_response E "code fever" (Scenario.start _) in
  fst out = Ok (Some "The suggested code is MG26.", Some 30%Z, Some 20%Z, Some 10%Z) /\
  filter is_call (@events_since E (Scenario.start _) (snd out))
  = [EvCall "query_icd_11_api" (PyString "fever")].
Proof.
  cbv zeta.
  pose (E := Scenario.externals Scenario.code_fever).
  pose (first := Scenario.call "call_1" "query_icd_11_api" Scenario.args_fever).
  pose (choice := {| finish_reason := "tool_calls";
                     message := {| content := None;
                                   tool_calls := Some [first;
                                     Scenario.call "call_2" "query_icd_11_api" "{}"] |} |}).
  destruct (@C5_one_invocation_then_answer_with_first_usage E
              "code fever" (Scenario.start _) "gpt-4"
              Scenario.asks_lookup 1%nat
              {| total_tokens := 30; prompt_tokens := 20; completion_tokens := 10 |}
              choice [] first
              [Scenario.call "call_2" "query_icd_11_api" "{}"]
              [("input", PyString "fever")]
              (Some (Json.dumps [("fever", [(Some "MG26", Some "http://id.who.int/icd/1")])]))
              (snd (@query_icd_11_api E (PyString "fever")
                      (@state_at_call E "gpt-4" "code fever" (Scenario.start _) 1%nat choice)))
              (Scenario.answers "The suggested code is MG26." 90 80 10) 2%nat
              {| finish_reason := "stop";
                 message := {| content := Some "The suggested code is MG26.";
                               tool_calls := None |} |} [])
    as (Hreply & Hcalls & _).
  - apply scenario_configured. reflexivity.
  - reflexivity.
  - reflexivity.
  - reflexivity.
  - reflexivity.
  - reflexivity.
  - reflexivity.
  - reflexivity.
  - vm_compute. reflexivity.
  - vm_compute. reflexivity.
  - reflexivity.
  - split; [exact Hreply | exact Hcalls].
Defined.

Lemma C6_witness :
  let E := Scenario.externals Scenario.small_talk in
  let out := @generate_response E "hi" (Scenario.start _) in
  fst out = Ok (Some "Hello.", Some 12%Z, Some 9%Z, Some 3%Z) /\
  filter is_call (@events_since E (Scenario.start _) (snd out)) = [].
Proof.
  cbv zeta.
  destruct (@C6_direct_answer_never_invokes_capability
              (Scenario.externals Scenario.small_talk)
              "hi" (Scenario.start _) "gpt-4"
              (Scenario.answers "Hello." 12 9 3) 1%nat
              {| total_tokens := 12; prompt_tokens := 9; completion_tokens := 3 |}
              {| finish_reason := "stop";
                 message := {| content := Some "Hello."; tool_calls := None |} |} [])
    as (Hreply & _ & Hcalls).
  - apply scenario_configured. reflexivity.
  - reflexivity.
  - reflexivity.
  - reflexivity.
  - simpl. discriminate.
  - split; [exact Hreply | exact Hcalls].
Defined.

Lemma C7_witness :
  let E := Scenario.externals Scenario.small_talk in
  (exists s' wd',
      @run_scripts E [Scenario.send "hi"; Scenario.send "more"] None 0%nat
      = (Some s', wd') /\
      nth_error (messages s') 0
      = Some (RoleContent "system" "You are an assistant to a clinical coder.")) /\
  messages (session (snd (@run_script E (Scenario.clear "Be brief.")
                            (Some Scenario.fresh_session) 0%nat)))
  = [RoleContent "system" "Be brief."].
Proof.
  cbv zeta. split.
  - apply (proj1 (proj2 (@C7_system_message_until_reset
                           (Scenario.externals Scenario.small_talk)))
                 (Scenario.send "hi") [Scenario.send "more"] 0%nat).
    repeat constructor.
  - apply (proj2 (proj2 (@C7_system_message_until_reset
                           (Scenario.externals Scenario.small_talk)))
                 (Scenario.clear "Be brief.") (Some Scenario.fresh_session) 0%nat);
      reflexivity.
Defined.

Lemma C8_witness :
  let E := Scenario.externals Scenario.flaky in
  let st1 := snd (@generate_response E "hi" (Scenario.start _)) in
  fst (@generate_response E "hi" (Scenario.start _)) = Raise unbound_completion /\
  messages (session st1) = [Scenario.seed; RoleContent "user" "hi"] /\
  exists req evs,
    @events_since E st1 (snd (@generate_response E "again" st1)) = EvChat req :: evs /\
    In (RoleContent "user" "hi") (req_messages req).
Proof.
  cbv zeta. split; [vm_compute; reflexivity|]. split; [vm_compute; reflexivity|].
  apply (proj2 (proj2 (@C8_user_message_stays (Scenario.externals Scenario.flaky)
                         "hi" (Scenario.start _))
                      "again"
                      (snd (@generate_response (Scenario.externals Scenario.flaky)
                              "hi" (Scenario.start _)))
                      eq_refl)
               "gpt-4").
  apply scenario_configured. reflexivity.
Defined.


(* ===================================================================== *)
(** ** More on [query_icd_11_api] *)
(* ===================================================================== *)

Lemma opt_eqb_eq (a b : option string) : opt_eqb a b = true <-> a = b.
Proof.
  destruct a as [x|], b as [y|]; simpl; split; intro H;
    try discriminate; try reflexivity.
  - apply String.eqb_eq in H. subst. reflexivity.
  - injection H as ->. apply String.eqb_refl.
Qed.

Lemma codes_get_set_same (k v : option string) (d : Codes) :
  Dict.get opt_eqb k (Dict.set opt_eqb k v d) = Some v.
Proof.
  induction d as [|[k' v'] rest IH]; simpl.
  - rewrite (proj2 (opt_eqb_eq k k) eq_refl). reflexivity.
  - destruct (opt_eqb k k') eqn:E; simpl; rewrite E; [reflexivity | exact IH].
Qed.

Lemma codes_get_set_other (k k' v : option string) (d : Codes) :
  k <> k' ->
  Dict.get opt_eqb k' (Dict.set opt_eqb k v d) = Dict.get opt_eqb k' d.
Proof.
  intro Hne.
  assert (Hkk : opt_eqb k' k = false).
  { destruct (opt_eqb k' k) eqn:E; [|reflexivity].
    apply opt_eqb_eq in E. congruence. }
  induction d as [|[k0 v0] rest IH]; simpl.
  - rewrite Hkk. reflexivity.
  - destruct (opt_eqb k k0) eqn:E; simpl.
    + apply opt_eqb_eq in E. subst k0. rewrite Hkk. reflexivity.
    + destruct (opt_eqb k' k0); [reflexivity | exact IH].
Qed.

Lemma codes_length_set (k v : option string) (d : Codes) :
  (length (Dict.set opt_eqb k v d) <= S (length d))%nat.
Proof.
  induction d as [|[k' v'] rest IH]; simpl; [lia|].
  destruct (opt_eqb k k'); simpl; lia.
Qed.

Lemma codes_fold_length (entities : list Entity) :
  forall d : Codes,
    (length (fold_left (fun d code_ => Dict.set opt_eqb (theCode code_) (id code_) d)
                       entities d)
     <= length entities + length d)%nat.
Proof.
  induction entities as [|e rest IH]; intro d; simpl; [lia|].
  specialize (IH (Dict.set opt_eqb (theCode e) (id e) d)).
  pose proof (codes_length_set (theCode e) (id e) d). lia.
Qed.

Lemma codes_fold_untouched (k : option string) (entities : list Entity) :
  (forall e, In e entities -> theCode e <> k) ->
  forall d : Codes,
    Dict.get opt_eqb k
      (fold_left (fun d code_ => Dict.set opt_eqb (theCode code_) (id code_) d)
                 entities d)
    = Dict.get opt_eqb k d.
Proof.
  induction entities as [|e rest IH]; intros Hne d; simpl; [reflexivity|].
  rewrite IH by (intros e' He'; apply Hne; right; exact He').
  apply codes_get_set_other. apply Hne. left. reflexivity.
Qed.

(** In the dict built from the entities a code maps to the link of the
    last entity that carries it. *)
Lemma codes_of_last_wins (before after : list Entity) (e : Entity) :
  (forall e', In e' after -> theCode e' <> theCode e) ->
  Dict.get opt_eqb (theCode e) (codes_of (before ++ e :: after)) = Some (id e).
Proof.
  intro Hafter. unfold codes_of. rewrite fold_left_app. simpl.
  rewrite (codes_fold_untouched _ _ Hafter). apply codes_get_set_same.
Qed.

Section MoreLookup.
Context `{Ext : Externals}.

Ltac run_lookup :=
  unfold query_icd_11_api, for_word, split_input, bind, log, external, lift,
    ret, raise; simpl.

(** With the key [word] in place the loop of lines 144-147 goes through. *)
Lemma record_codes_fold (word : string) (entities : list Entity) :
  forall (inner : Codes) (s : State),
    record_codes word entities [(word, inner)] s
    = (Ok [(word,
            fold_left (fun d code_ => Dict.set opt_eqb (theCode code_) (id code_) d)
                      entities inner)], s).
Proof.
  induction entities as [|e rest IH]; intros inner s; simpl.
  - reflexivity.
  - rewrite String.eqb_refl. apply IH.
Qed.

(** A lookup, however it ends and whatever it is given, asks for one
    token, makes at most one search and no chat request, and leaves the
    session alone. *)
Theorem lookup_one_token_at_most_one_search (input : PyVal) (st : State) :
  let out := query_icd_11_api input st in
  session (snd out) = session st /\
  filter is_post (events_since st (snd out)) = [EvPost TOKEN_ENDPOINT payload] /\
  (length (filter is_get (events_since st (snd out))) <= 1)%nat /\
  filter is_chat (events_since st (snd out)) = [] /\
  filter is_call (events_since st (snd out)) = [EvCall "query_icd_11_api" input].
Proof.
  cbv zeta.
  destruct (lookup_effects input st) as [Hsession (evs & Htrace & Hgets & Hlen)].
  destruct (searches_only evs Hgets) as [Hno_call Hno_chat].
  assert (Hno_post : filter is_post evs = []).
  { clear - Hgets. induction evs as [|ev evs IH]; simpl in *; [reflexivity|].
    apply andb_true_iff in Hgets as [Hev Hevs].
    destruct ev; try discriminate. simpl. auto. }
  unfold events_since. rewrite Htrace, skipn_past. simpl.
  rewrite Hno_post, Hno_call, Hno_chat.
  repeat split; auto.
  pose proof (filter_length_le is_get evs). lia.
Qed.

(** A first token with a comma in it, found by the search with at least
    one entity: the key was entered with the comma and is read without
    it, so the lookup raises [KeyError] on the stripped word. *)
Theorem lookup_comma_token_found_raises
        (input word : string) (rest : list string) (st : State)
        (t : string) (w1 : World) (resp : Response) (w2 : World)
        (body : SearchJson) (e : Entity) (es : list Entity) :
  PyStr.split input = word :: rest ->
  PyStr.replace_comma word <> word ->
  token_granted (world st) t w1 ->
  search_answers word t w1 resp w2 ->
  status_code resp = 200%Z ->
  json resp = Ok body ->
  destinationEntities body = Some (e :: es) ->
  fst (query_icd_11_api (PyString input) st)
  = Raise (KeyError (PyStr.replace_comma word)).
Proof.
  intros Hsplit Hcomma Htok Hget Hstatus Hjson Hents.
  unfold token_granted in Htok. unfold search_answers in Hget.
  run_lookup. rewrite Htok. simpl. rewrite Hsplit. simpl. rewrite Hget. simpl.
  rewrite Hstatus. simpl. rewrite Hjson. simpl. rewrite Hents. simpl.
  apply String.eqb_neq in Hcomma. rewrite Hcomma. reflexivity.
Qed.

(** A search that finds nothing: the lookup returns the mapping from the
    first token as it was typed, commas included, to an empty dict. *)
Theorem lookup_nothing_found_maps_token_to_empty
        (input word : string) (rest : list string) (st : State)
        (t : string) (w1 : World) (resp : Response) (w2 : World)
        (body : SearchJson) :
  PyStr.split input = word :: rest ->
  token_granted (world st) t w1 ->
  search_answers word t w1 resp w2 ->
  status_code resp = 200%Z ->
  json resp = Ok body ->
  destinationEntities body = Some [] ->
  fst (query_icd_11_api (PyString input) st)
  = Ok (Some (Json.dumps [(word, [])])).
Proof.
  intros Hsplit Htok Hget Hstatus Hjson Hents.
  unfold token_granted in Htok. unfold search_answers in Hget.
  run_lookup. rewrite Htok. simpl. rewrite Hsplit. simpl. rewrite Hget. simpl.
  rewrite Hstatus. simpl. rewrite Hjson. simpl. rewrite Hents. reflexivity.
Qed.

(** A first token without comma, found by the search: the lookup returns
    the mapping from that token to the dict of the codes found, in which
    a code listed more than once keeps the link listed last, and which
    has no more entries than entities were found. *)
Theorem lookup_found_maps_codes_to_links
        (input word : string) (rest : list string) (st : State)
        (t : string) (w1 : World) (resp : Response) (w2 : World)
        (body : SearchJson) (entities : list Entity) :
  PyStr.split input = word :: rest ->
  PyStr.replace_comma word = word ->
  token_granted (world st) t w1 ->
  search_answers word t w1 resp w2 ->
  status_code resp = 200%Z ->
  json resp = Ok body ->
  destinationEntities body = Some entities ->
  fst (query_icd_11_api (PyString input) st)
  = Ok (Some (Json.dumps [(word, codes_of entities)])) /\
  (length (codes_of entities) <= length entities)%nat /\
  forall before e after,
    entities = before ++ e :: after ->
    (forall e', In e' after -> theCode e' <> theCode e) ->
    Dict.get opt_eqb (theCode e) (codes_of entities) = Some (id e).
Proof.
  intros Hsplit Hcomma Htok Hget Hstatus Hjson Hents.
  unfold token_granted in Htok. unfold search_answers in Hget.
  split; [|split].
  - run_lookup. rewrite Htok. simpl. rewrite Hsplit. simpl. rewrite Hget. simpl.
    rewrite Hstatus. simpl. rewrite Hjson. simpl. rewrite Hents. simpl.
    rewrite Hcomma. rewrite record_codes_fold. reflexivity.
  - pose proof (codes_fold_length entities []) as H. simpl in H.
    unfold codes_of. lia.
  - intros before e after -> Hafter. apply codes_of_last_wins. exact Hafter.
Qed.

(** A token answer without ["access_token"]: the lookup raises
    [KeyError('access_token')] before any search. *)
Theorem lookup_without_access_token_raises
        (input : PyVal) (st : State) (w1 : World) :
  requests_post_json TOKEN_ENDPOINT payload (world st)
  = (Ok {| access_token := None |}, w1) ->
  let out := query_icd_11_api input st in
  fst out = Raise (KeyError "access_token") /\
  filter is_get (events_since st (snd out)) = [].
Proof.
  intros Htok out. subst out. run_lookup. rewrite Htok. simpl.
  unfold events_since. simpl. rewrite <- app_assoc, skipn_past. auto.
Qed.

(** An input that is no [str] (the LLM left ["input"] out, or gave a
    number or a list): the token is asked for all the same, and then
    [input.split()] raises [AttributeError]; nothing is searched. *)
Theorem lookup_of_non_string_raises_after_token
        (input : PyVal) (st : State) (t : string) (w1 : World) :
  is_string input = false ->
  token_granted (world st) t w1 ->
  let out := query_icd_11_api input st in
  fst out = Raise (no_attribute input "split") /\
  events_since st (snd out)
  = [EvCall "query_icd_11_api" input; EvPost TOKEN_ENDPOINT payload].
Proof.
  intros Hstr Htok out. subst out. unfold token_granted in Htok.
  run_lookup. rewrite Htok. simpl.
  unfold events_since.
  destruct input; try discriminate Hstr; simpl;
    rewrite <- app_assoc, skipn_past; auto.
Qed.

End MoreLookup.

(* ===================================================================== *)
(** ** More on [generate_response] *)
(* ===================================================================== *)

Section MoreTurn.
Context `{Ext : Externals}.

#[local] Arguments query_icd_11_api : simpl never.
#[local] Arguments search_url : simpl never.
#[local] Arguments tools : simpl never.

Lemma configured_or_not :
  (exists model, configured model) \/ (forall model, ~ configured model).
Proof.
  unfold configured.
  destruct (Dict.get String.eqb "AZURE_OPENAI_KEY" ENV);
    [|right; intros m (H & _); apply H; reflexivity].
  destruct (Dict.get String.eqb "AZURE_OPENAI_ENDPOINT" ENV);
    [|right; intros m (_ & H & _); apply H; reflexivity].
  destruct (Dict.get String.eqb "AZURE_OPENAI_DEPLOYMENT_NAME" ENV) as [model|];
    [|right; intros m (_ & _ & H); discriminate H].
  left. exists model. repeat split; discriminate.
Qed.

(** The run of a turn when one of the three keys is missing. *)
Lemma no_key_run (prompt : string) (st : State) :
  (forall model, ~ configured model) ->
  generate_response prompt st = (Raise unbound_completion, state_at_try prompt st).
Proof.
  intro Hnot. unfold configured in Hnot.
  unfold generate_response, try_block, first_request, try, env, get_messages,
    append_message, read_usage, bind, external, ret, raise, state_at_try,
    user_message, unbound_completion.
  simpl.
  destruct (Dict.get String.eqb "AZURE_OPENAI_KEY" ENV); [|reflexivity].
  destruct (Dict.get String.eqb "AZURE_OPENAI_ENDPOINT" ENV); [|reflexivity].
  destruct (Dict.get String.eqb "AZURE_OPENAI_DEPLOYMENT_NAME" ENV) as [model|];
    [|reflexivity].
  exfalso. apply (Hnot model). repeat split; discriminate.
Qed.

(** With one of the three Azure keys missing from the [.env] file, a
    turn appends the user message, makes no call to the outside and ends
    by raising [UnboundLocalError]: the [KeyError] is caught, and line
    110 reads [completion]. *)
Theorem turn_without_azure_key_raises (prompt : string) (st : State) :
  (forall model, ~ configured model) ->
  let out := generate_response prompt st in
  fst out = Raise unbound_completion /\
  events_since st (snd out) = [] /\
  world (snd out) = world st /\
  messages (session (snd out)) = messages (session st) ++ [user_message prompt].
Proof.
  intros Hnot out. subst out. rewrite (no_key_run prompt st Hnot).
  unfold events_since. simpl. rewrite skipn_all. auto.
Qed.

Lemma bind_ok_inv {A B} (m : M A) (k : A -> M B) (s s' : State) (b : B) :
  bind m k s = (Ok b, s') ->
  exists a s1, m s = (Ok a, s1) /\ k a s1 = (Ok b, s').
Proof.
  unfold bind. destruct (m s) as [[a|e] s1]; intro H; [eauto | discriminate H].
Qed.

(** What the capability branch returns carries the usage of the first
    reply, which therefore has one. *)
Lemma tool_branch_reply (completion : Completion) (choice : Choice)
      (s s' : State) (r : Reply) :
  tool_branch completion choice s = (Ok r, s') ->
  exists second_response u,
    usage completion = Some u /\
    r = (second_response,
         Some (total_tokens u),
         Some (prompt_tokens u),
         Some (completion_tokens u)).
Proof.
  unfold tool_branch. intro H.
  repeat (apply bind_ok_inv in H; destruct H as (? & ? & ? & H); cbv zeta in H).
  unfold ret in H. injection H as <- _.
  match goal with
  | Hu : usage_of completion _ = (Ok ?u, _) |- _ =>
      unfold usage_of in Hu; destruct (usage completion) as [u'|];
      [unfold ret in Hu; injection Hu as -> _ | discriminate Hu]
  end.
  eauto.
Qed.

(** An exception that leaves a turn comes from lines 110-112: either
    [completion] is unbound, and then only the user message was appended,
    or the first reply has no usage. *)
Lemma raised_cases (prompt : string) (st : State) (e : exn) :
  fst (generate_response prompt st) = Raise e ->
  (e = unbound_completion /\
   session (snd (generate_response prompt st))
   = with_messages (messages (session st) ++ [user_message prompt]) (session st)) \/
  (e = missing_usage /\
   exists model completion w1,
     chat_completions_create (first_chat_request model prompt st) (world st)
     = (Ok completion, w1) /\
     usage completion = None).
Proof.
  destruct configured_or_not as [[model Hconf] | Hnot].
  - rewrite (turn_unfold prompt st model Hconf).
    destruct (chat_completions_create _ (world st)) as [[completion|e0] w1] eqn:Hchat.
    + destruct (usage completion) as [u|] eqn:Husage.
      * destruct (after_first_request completion _) as [[[r|response0|e1]|e1] s2];
          rewrite ?(read_usage_some _ _ _ _ Husage); simpl; intro H;
          discriminate H.
      * destruct (after_first_request completion _) as [[[r|response0|e1]|e1] s2];
          rewrite ?(read_usage_none _ _ _ Husage); simpl; intro H;
          try discriminate H;
          injection H as <-; right; (split; [reflexivity|]);
          exists model, completion, w1; auto.
    + simpl. intro H. injection H as <-. left. split; reflexivity.
  - rewrite (no_key_run prompt st Hnot). simpl.
    intro H. injection H as <-. left. split; reflexivity.
Qed.

(** Whatever is raised inside the [try] is an [Exception] and is caught
    there.  The exceptions a turn can let out are those of lines 110-112,
    which stand outside the [try]: the [UnboundLocalError] on [completion]
    when the first request did not return, and the [AttributeError] on
    [completion.usage] when the first reply carries no usage.  A turn
    that returns gives the three counters of the first reply, never
    [None]. *)
Theorem turn_raises_only_from_lines_110_112
        (prompt : string) (st : State) :
  (forall e, fst (generate_response prompt st) = Raise e ->
             e = unbound_completion \/
             (e = missing_usage /\
              exists model completion w1,
                chat_completions_create (first_chat_request model prompt st)
                                        (world st)
                = (Ok completion, w1) /\
                usage completion = None)) /\
  (forall response total prompt_ completion_,
      fst (generate_response prompt st)
      = Ok (response, total, prompt_, completion_) ->
      exists model completion w1 u,
        chat_completions_create (first_chat_request model prompt st) (world st)
        = (Ok completion, w1) /\
        usage completion = Some u /\
        total = Some (total_tokens u) /\
        prompt_ = Some (prompt_tokens u) /\
        completion_ = Some (completion_tokens u)).
Proof.
  split.
  - intros e H. destruct (raised_cases prompt st e H) as [[He _] | Hmissing];
      [left; exact He | right; exact Hmissing].
  - destruct configured_or_not as [[model Hconf] | Hnot].
    + rewrite (turn_unfold prompt st model Hconf).
      destruct (chat_completions_create _ (world st)) as [[completion|e0] w1] eqn:Hchat.
      * destruct (after_first_request completion _)
          as [[[r|response0|e1]|e1] s2] eqn:Hafter.
        -- simpl. intros response total prompt_ completion_ H.
           unfold after_first_request in Hafter.
           apply bind_ok_inv in Hafter.
           destruct Hafter as (choice & s1 & _ & Hafter).
           cbv zeta in Hafter.
           destruct (String.eqb (finish_reason choice) "tool_calls");
             [|unfold ret in Hafter; discriminate Hafter].
           apply bind_ok_inv in Hafter.
           destruct Hafter as (r' & s3 & Htool & Hret).
           unfold ret in Hret. injection Hret as -> _.
           apply tool_branch_reply in Htool.
           destruct Htool as (second & u & Husage & Hr).
           rewrite Hr in H. injection H as _ <- <- <-.
           exists model, completion, w1, u. auto.
        -- destruct (usage completion) as [u|] eqn:Husage.
           ++ rewrite (read_usage_some _ _ _ _ Husage). simpl.
              intros response total prompt_ completion_ H.
              injection H as _ <- <- <-. exists model, completion, w1, u. auto.
           ++ rewrite (read_usage_none _ _ _ Husage). simpl.
              intros response total prompt_ completion_ H. discriminate H.
        -- destruct (usage completion) as [u|] eqn:Husage.
           ++ rewrite (read_usage_some _ _ _ _ Husage). simpl.
              intros response total prompt_ completion_ H.
              injection H as _ <- <- <-. exists model, completion, w1, u. auto.
           ++ rewrite (read_usage_none _ _ _ Husage). simpl.
              intros response total prompt_ completion_ H. discriminate H.
        -- destruct (usage completion) as [u|] eqn:Husage.
           ++ rewrite (read_usage_some _ _ _ _ Husage). simpl.
              intros response total prompt_ completion_ H.
              injection H as _ <- <- <-. exists model, completion, w1, u. auto.
           ++ rewrite (read_usage_none _ _ _ Husage). simpl.
              intros response total prompt_ completion_ H. discriminate H.
      * simpl. intros response total prompt_ completion_ H. discriminate H.
    + rewrite (no_key_run prompt st Hnot). simpl.
      intros response total prompt_ completion_ H. discriminate H.
Qed.

(** A turn whose first reply came, and in which something raised
    afterwards. *)
Lemma later_fault_run (prompt : string) (st : State) (model : string)
      (completion : Completion) (w1 : World) (u : Usage) (e : exn) (s2 : State) :
  configured model ->
  chat_completions_create (first_chat_request model prompt st) (world st)
  = (Ok completion, w1) ->
  usage completion = Some u ->
  after_first_request completion (state_at_reply model prompt st w1)
  = (Raise e, s2) ->
  generate_response prompt st
  = (Ok (Some (error_text e),
         Some (total_tokens u),
         Some (prompt_tokens u),
         Some (completion_tokens u)),
     s2).
Proof.
  intros Hconf Hchat Husage Hafter.
  rewrite (turn_unfold _ _ _ Hconf), Hchat, Hafter.
  apply (read_usage_some _ _ _ _ Husage).
Qed.

Ltac run_branch :=
  unfold after_first_request, tool_branch, bind, append_message, index0,
    args_get, get_messages, env, external, lift, ret, raise,
    state_at_reply, state_at_call, first_chat_request, user_message; simpl.

(** A first reply that asks for a capability the program does not have:
    the [KeyError] on its name is caught and the turn returns the error
    text with the usage of the first reply.  Nothing is invoked and no
    second chat request is made; the assistant's tool-call message,
    appended at line 81, stays in the conversation without a tool
    result. *)
Theorem turn_with_unknown_capability
        (prompt : string) (st : State) (model : string)
        (completion : Completion) (w1 : World) (u : Usage) (choice : Choice)
        (others : list Choice) (tool_call : ToolCall) (more : list ToolCall) :
  configured model ->
  chat_completions_create (first_chat_request model prompt st) (world st)
  = (Ok completion, w1) ->
  usage completion = Some u ->
  choices completion = choice :: others ->
  finish_reason choice = "tool_calls" ->
  tool_calls (message choice) = Some (tool_call :: more) ->
  fn_name (tc_function tool_call) <> "query_icd_11_api" ->
  generate_response prompt st
  = (Ok (Some (error_text (KeyError (fn_name (tc_function tool_call)))),
         Some (total_tokens u),
         Some (prompt_tokens u),
         Some (completion_tokens u)),
     state_at_call model prompt st w1 choice).
Proof.
  intros Hconf Hchat Husage Hchoices Hfinish Hcalls Hname.
  apply (later_fault_run _ _ _ _ _ _ _ _ Hconf Hchat Husage).
  run_branch. rewrite Hchoices. simpl. rewrite Hfinish. simpl.
  rewrite Hcalls. simpl.
  apply String.eqb_neq in Hname. rewrite Hname. simpl.
  rewrite <- app_assoc. reflexivity.
Qed.

(** A first reply whose arguments [json.loads] rejects with [e]: the turn
    returns the error text of [e] with the usage of the first reply,
    invokes nothing and leaves the tool-call message without a result. *)
Theorem turn_with_unreadable_arguments
        (prompt : string) (st : State) (model : string)
        (completion : Completion) (w1 : World) (u : Usage) (choice : Choice)
        (others : list Choice) (tool_call : ToolCall) (more : list ToolCall)
        (e : exn) :
  configured model ->
  chat_completions_create (first_chat_request model prompt st) (world st)
  = (Ok completion, w1) ->
  usage completion = Some u ->
  choices completion = choice :: others ->
  finish_reason choice = "tool_calls" ->
  tool_calls (message choice) = Some (tool_call :: more) ->
  fn_name (tc_function tool_call) = "query_icd_11_api" ->
  json_loads (fn_arguments (tc_function tool_call)) = Raise e ->
  generate_response prompt st
  = (Ok (Some (error_text e),
         Some (total_tokens u),
         Some (prompt_tokens u),
         Some (completion_tokens u)),
     state_at_call model prompt st w1 choice).
Proof.
  intros Hconf Hchat Husage Hchoices Hfinish Hcalls Hname Hloads.
  apply (later_fault_run _ _ _ _ _ _ _ _ Hconf Hchat Husage).
  run_branch. rewrite Hchoices. simpl. rewrite Hfinish. simpl.
  rewrite Hcalls. simpl. rewrite Hname. simpl. rewrite Hloads. simpl.
  rewrite <- app_assoc. reflexivity.
Qed.

(** A capability that raises [e] (the token endpoint refuses, the search
    cannot be reached, a token with a comma is found, the input is no
    string): the turn returns the error text of [e] with the usage of the
    first reply.  The second chat request is not made, and the
    conversation ends with the assistant's tool-call message, no tool
    result after it. *)
Theorem turn_with_failing_capability
        (prompt : string) (st : State) (model : string)
        (completion : Completion) (w1 : World) (u : Usage) (choice : Choice)
        (others : list Choice) (tool_call : ToolCall) (more : list ToolCall)
        (args : list (string * PyVal)) (e : exn) (s2 : State) :
  configured model ->
  chat_completions_create (first_chat_request model prompt st) (world st)
  = (Ok completion, w1) ->
  usage completion = Some u ->
  choices completion = choice :: others ->
  finish_reason choice = "tool_calls" ->
  tool_calls (message choice) = Some (tool_call :: more) ->
  fn_name (tc_function tool_call) = "query_icd_11_api" ->
  json_loads (fn_arguments (tc_function tool_call)) = Ok (PyDict args) ->
  query_icd_11_api (input_of args) (state_at_call model prompt st w1 choice)
  = (Raise e, s2) ->
  generate_response prompt st
  = (Ok (Some (error_text e),
         Some (total_tokens u),
         Some (prompt_tokens u),
         Some (completion_tokens u)),
     s2) /\
  messages (session s2)
  = messages (session st)
    ++ [user_message prompt; AssistantObject (message choice)] /\
  filter is_chat (events_since st s2)
  = [EvChat (first_chat_request model prompt st)].
Proof.
  intros Hconf Hchat Husage Hchoices Hfinish Hcalls Hname Hloads Hquery.
  destruct (lookup_effects (input_of args) (state_at_call model prompt st w1 choice))
    as [Hsession (evs & Htrace & Hgets & _)].
  rewrite Hquery in Hsession, Htrace. simpl in Hsession, Htrace.
  destruct (searches_only evs Hgets) as [_ Hno_chat].
  split; [|split].
  - apply (later_fault_run _ _ _ _ _ _ _ _ Hconf Hchat Husage).
    unfold input_of in Hquery.
    run_branch. rewrite Hchoices. simpl. rewrite Hfinish. simpl.
    rewrite Hcalls. simpl. rewrite Hname. simpl. rewrite Hloads. simpl.
    unfold state_at_call, first_chat_request, user_message in Hquery.
    unfold with_messages in *. simpl in *.
    rewrite <- app_assoc. simpl.
    destruct (Dict.get String.eqb "input" args); simpl;
      rewrite Hquery; reflexivity.
  - rewrite Hsession. reflexivity.
  - unfold events_since. rewrite Htrace.
    repeat rewrite <- app_assoc. rewrite skipn_past. simpl.
    rewrite Hno_chat. reflexivity.
Qed.

Ltac break_innermost :=
  match goal with
  | |- context [match ?x with _ => _ end] =>
      lazymatch x with
      | context [match _ with _ => _ end] => fail
      | _ => destruct x eqn:?
      end
  end.

(** The events of the capability branch. *)
Lemma tool_branch_shape (completion : Completion) (choice : Choice) (s : State) :
  exists evs,
    trace (snd (tool_branch completion choice s)) = trace s ++ evs /\
    (evs = [] \/
     exists input searches,
       forallb is_get searches = true /\ (length searches <= 1)%nat /\
       (evs = lookup_trace input searches \/
        exists req2,
          req_tools req2 = None /\
          evs = lookup_trace input searches ++ [EvChat req2])).
Proof.
  unfold tool_branch, usage_of, bind, append_message, index0, args_get,
    get_messages, env, external, lift, ret, raise, available_functions. simpl.
  repeat (break_innermost; simpl).
  all: try (exists []; rewrite app_nil_r; split; [reflexivity | left; reflexivity]).
  all: match goal with
       | H : query_icd_11_api ?v ?S = (_, _) |- _ =>
           destruct (lookup_effects v S) as [_ (searches & Htrace & Hgets & Hlen)];
           rewrite H in Htrace; simpl in Htrace; rewrite Htrace;
           try rewrite <- app_assoc;
           eexists; (split; [reflexivity|]);
           right; exists v, searches; repeat split; auto
       end.
  all: try (left; reflexivity).
  all: right; eexists; split; [|reflexivity]; reflexivity.
Qed.

(** The calls a turn makes, however it ends, come in one order: the
    first chat request, with the tools declared; then at most one
    lookup, which asks for one token and makes at most one search; then
    at most one more chat request, with no tools declared.  A turn thus
    never invokes the capability twice and never makes a third chat
    request. *)
Theorem turn_calls_come_in_one_order (prompt : string) (st : State) :
  let evs := events_since st (snd (generate_response prompt st)) in
  trace (snd (generate_response prompt st)) = trace st ++ evs /\
  turn_shape evs /\
  (length (filter is_chat evs) <= 2)%nat /\
  (length (filter is_call evs) <= 1)%nat.
Proof.
  cbv zeta.
  assert (H : exists evs,
             trace (snd (generate_response prompt st)) = trace st ++ evs /\
             turn_shape evs).
  { destruct configured_or_not as [[model Hconf] | Hnot].
    - rewrite (turn_unfold prompt st model Hconf).
      assert (Htools : req_tools (first_chat_request model prompt st) = Some tools)
        by reflexivity.
      destruct (chat_completions_create _ (world st)) as [[completion|e0] w1].
      + assert (Hafter : exists evs',
                   trace (snd (after_first_request completion
                                 (state_at_reply model prompt st w1)))
                   = trace (state_at_reply model prompt st w1) ++ evs' /\
                   (evs' = [] \/
                    exists input searches,
                      forallb is_get searches = true /\
                      (length searches <= 1)%nat /\
                      (evs' = lookup_trace input searches \/
                       exists req2,
                         req_tools req2 = None /\
                         evs' = lookup_trace input searches ++ [EvChat req2]))).
        { unfold after_first_request, bind at 1, index0.
          destruct (choices completion) as [|choice others]; simpl.
          - exists []. rewrite app_nil_r. auto.
          - destruct (String.eqb (finish_reason choice) "tool_calls").
            + destruct (tool_branch_shape completion choice
                          (state_at_reply model prompt st w1))
                as (evs' & Htrace & Hshape).
              exists evs'. split; [|exact Hshape].
              unfold bind, ret.
              destruct (tool_branch completion choice _) as [[r|e] s2];
                exact Htrace.
            + exists []. rewrite app_nil_r. auto. }
        destruct Hafter as (evs' & Htrace & Hshape).
        exists (EvChat (first_chat_request model prompt st) :: evs').
        split.
        * destruct (after_first_request completion _) as [[[r|response0|e1]|e1] s2];
            rewrite ?read_usage_state; simpl in *;
            rewrite Htrace, app_cons_assoc; reflexivity.
        * right. exists (first_chat_request model prompt st).
          split; [exact Htools|].
          destruct Hshape as [-> | (input & searches & Hgets & Hlen & Hrest)];
            [left; reflexivity|].
          right. exists input, searches. repeat split; auto.
          destruct Hrest as [-> | (req2 & Hnone & ->)];
            [left; reflexivity | right; exists req2; auto].
      + exists [EvChat (first_chat_request model prompt st)]. simpl.
        split; [reflexivity|]. right. eauto.
    - rewrite (no_key_run prompt st Hnot). simpl.
      exists []. rewrite app_nil_r. split; [reflexivity | left; reflexivity]. }
  destruct H as (evs & Htrace & Hshape).
  unfold events_since. rewrite Htrace, skipn_past.
  split; [reflexivity|]. split; [exact Hshape|].
  destruct Hshape as [-> | (req1 & _ & [-> | (input & searches & Hgets & _ & Hrest)])];
    simpl; try lia.
  destruct (searches_only searches Hgets) as [Hno_call Hno_chat].
  destruct Hrest as [-> | (req2 & _ & ->)]; unfold lookup_trace; simpl;
    rewrite ?filter_app, ?Hno_call, ?Hno_chat; simpl; lia.
Qed.


End MoreTurn.

(* ===================================================================== *)
(** ** More on the script: the history lists and their display *)
(* ===================================================================== *)

Section MoreScript.
Context `{Ext : Externals}.

(** A run of the script in which the turn raises [e]: the run ends with
    that exception, one of the two that lines 110-112 raise.  The user
    text is in the conversation, followed at most by the messages of a
    capability exchange (by nothing when [completion] was unbound), but
    neither it nor anything else has been added to the lists the history
    is drawn from. *)
Theorem failed_turn_is_in_messages_not_in_history
        (w : Widgets) (store : option Session) (wd : World) (e : exn) :
  clear_button w = false ->
  submit_button w = true ->
  PyStr.truthy (user_input w) = true ->
  let s0 := initialise (seed_message w) store in
  fst (generate_response (user_input w) {| world := wd; session := s0; trace := [] |})
  = Raise e ->
  let out := run_script w store wd in
  fst out = Raise e /\
  (e = unbound_completion \/ e = missing_usage) /\
  (exists ms,
      messages (session (snd out))
      = messages s0 ++ user_message (user_input w) :: ms /\
      forallb exchange ms = true) /\
  (e = unbound_completion ->
   messages (session (snd out)) = messages s0 ++ [user_message (user_input w)]) /\
  past (session (snd out)) = past s0 /\
  generated (session (snd out)) = generated s0 /\
  model_name (session (snd out)) = model_name s0.
Proof.
  intros Hclear Hsubmit Htext s0 Hraise out. subst out. unfold run_script.
  fold s0. rewrite (script_send _ _ Hclear Hsubmit Htext).
  pose proof (raised_cases _ _ _ Hraise) as Hcases.
  destruct (turn_grows (user_input w) {| world := wd; session := s0; trace := [] |})
    as [(Hg & Hp & Hm & _) (ms & evs & Hms & Hx & _)].
  destruct (generate_response (user_input w) _) as [[reply|e'] s1];
    simpl in Hraise; [discriminate Hraise|].
  injection Hraise as ->. simpl in *.
  split; [reflexivity|]. split; [|split; [|split]].
  - destruct Hcases as [[He _] | [He _]]; [left | right]; exact He.
  - exists ms. split; [exact Hms | exact Hx].
  - intro He. destruct Hcases as [[_ Hsession] | [Hmissing _]].
    + rewrite Hsession. reflexivity.
    + rewrite He in Hmissing. discriminate Hmissing.
  - repeat split; congruence.
Qed.

Lemma aligned_same_lists (a b : Session) :
  same_lists a b -> aligned a -> aligned b.
Proof.
  intros (Hg & Hp & Hm & _) [H1 H2]. unfold aligned.
  rewrite <- Hg, <- Hp, <- Hm. auto.
Qed.

(** Lines 164-170 keep the three lists of the same length. *)
Lemma send_keeps_aligned (text : string) (s : State) :
  aligned (session s) ->
  aligned (session (snd
    ((reply <- generate_response text ;;
      let '(output, total_tokens, prompt_tokens, completion_tokens) := reply in
      update_session (append_past text) ;;;
      update_session (append_generated output) ;;;
      model <- env "AZURE_OPENAI_DEPLOYMENT_NAME" ;;
      update_session (append_model_name model)) s))).
Proof.
  intro Ha. unfold bind at 1.
  destruct (turn_grows text s) as [Hsame _].
  pose proof (aligned_same_lists _ _ Hsame Ha) as Ha'.
  destruct (generate_response text s) as [[[[[output t] p] c]|e] s1] eqn:Hturn;
    simpl in *; [|exact Ha'].
  destruct configured_or_not as [[model (_ & _ & Hmodel)] | Hnot].
  - unfold bind, update_session, env. simpl. rewrite Hmodel. simpl.
    destruct Ha' as [H1 H2]. unfold aligned. simpl.
    rewrite !length_app. simpl. lia.
  - rewrite (no_key_run text s Hnot) in Hturn.
    discriminate Hturn.
Qed.

Lemma script_keeps_aligned (w : Widgets) (s : State) :
  aligned (session s) -> aligned (session (snd (script w s))).
Proof.
  intro Ha. unfold script. unfold bind at 1.
  assert (Hstep : exists s1,
             (if clear_button w
              then update_session (clear_conversation (seed_message w))
              else ret tt) s = (Ok tt, s1) /\ aligned (session s1)).
  { destruct (clear_button w).
    - eexists. split; [reflexivity|]. split; reflexivity.
    - exists s. split; [reflexivity | exact Ha]. }
  destruct Hstep as (s1 & -> & Ha1).
  destruct (submit_button w && PyStr.truthy (user_input w)).
  - apply send_keeps_aligned. exact Ha1.
  - exact Ha1.
Qed.

Lemma run_scripts_keep_aligned (ws : list Widgets) :
  forall (s : Session) (wd : World),
    aligned s ->
    exists s' wd', run_scripts ws (Some s) wd = (Some s', wd') /\ aligned s'.
Proof.
  induction ws as [|w ws IH]; intros s wd Ha; simpl.
  - eauto.
  - unfold run_script. simpl.
    pose proof (script_keeps_aligned w {| world := wd; session := s; trace := [] |} Ha)
      as Ha'.
    destruct (script w _) as [r st]. apply IH. exact Ha'.
Qed.

(** Whatever the runs of the script, from a new session on, and however
    their turns end, the lists ["past"], ["generated"] and ["model_name"]
    have the same length: one entry per turn that returned. *)
Theorem history_lists_stay_aligned
        (w : Widgets) (ws : list Widgets) (wd : World) :
  exists s' wd',
    run_scripts (w :: ws) None wd = (Some s', wd') /\
    length (past s') = length (generated s') /\
    length (model_name s') = length (generated s').
Proof.
  simpl. unfold run_script.
  assert (Ha : aligned (initialise (seed_message w) None)) by (split; reflexivity).
  pose proof (script_keeps_aligned w
                {| world := wd; session := initialise (seed_message w) None;
                   trace := [] |} Ha) as Ha'.
  destruct (script w _) as [r st].
  destruct (run_scripts_keep_aligned ws (session st) (world st) Ha')
    as (s' & wd' & Hrun & Hs').
  exists s', wd'. split; [exact Hrun | exact Hs'].
Qed.

End MoreScript.

Lemma render_loop_aligned (n : nat) :
  forall (i : nat) (p0 ps : list string) (g0 gs : list (option string))
         (s : Session),
    past s = p0 ++ ps -> generated s = g0 ++ gs ->
    length p0 = i -> length g0 = i -> length ps = n -> length gs = n ->
    render_loop (seq i n) s = (bubbles_from i ps gs, Ok tt).
Proof.
  induction n as [|n IH]; intros i p0 ps g0 gs s Hp Hg Hp0 Hg0 Hps Hgs.
  - destruct ps; [|discriminate]. destruct gs; [|discriminate]. reflexivity.
  - destruct ps as [|p ps']; [discriminate|].
    destruct gs as [|g gs']; [discriminate|]. simpl.
    assert (Hnp : nth_error (past s) i = Some p).
    { rewrite Hp, nth_error_app2 by lia. rewrite Hp0, Nat.sub_diag. reflexivity. }
    assert (Hng : nth_error (generated s) i = Some g).
    { rewrite Hg, nth_error_app2 by lia. rewrite Hg0, Nat.sub_diag. reflexivity. }
    rewrite Hnp, Hng.
    rewrite (IH (S i) (p0 ++ [p]) ps' (g0 ++ [g]) gs' s).
    + reflexivity.
    + rewrite Hp, <- app_assoc. reflexivity.
    + rewrite Hg, <- app_assoc. reflexivity.
    + rewrite length_app. simpl. lia.
    + rewrite length_app. simpl. lia.
    + simpl in Hps. lia.
    + simpl in Hgs. lia.
Qed.

Lemma bubbles_from_length (texts : list string) :
  forall (i : nat) (replies : list (option string)),
    length texts = length replies ->
    length (bubbles_from i texts replies) = 2 * length replies.
Proof.
  induction texts as [|t texts IH]; intros i [|r replies] H; simpl in *;
    try discriminate; [reflexivity|].
  rewrite (IH (S i) replies) by lia. lia.
Qed.

Lemma render_aligned (s : Session) :
  length (past s) = length (generated s) ->
  render s = (bubbles_from 0 (past s) (generated s), Ok tt).
Proof.
  intro Hlen. unfold render. destruct (generated s) as [|g gs] eqn:Hg.
  - destruct (past s); [reflexivity | discriminate Hlen].
  - rewrite <- Hg in *.
    apply (render_loop_aligned (length (generated s)) 0 [] (past s) []
                               (generated s) s); auto.
Qed.

(** With ["past"] as long as ["generated"], drawing the history never
    fails on an index: it shows, turn after turn, the user text and then
    the reply, two bubbles a turn. *)
Theorem render_shows_every_turn_in_order (s : Session) :
  length (past s) = length (generated s) ->
  render s = (bubbles_from 0 (past s) (generated s), Ok tt) /\
  length (fst (render s)) = 2 * length (generated s).
Proof.
  intro Hlen. rewrite (render_aligned s Hlen). split; [reflexivity|]. simpl.
  apply bubbles_from_length. exact Hlen.
Qed.

Lemma str_nat_inj (i j : nat) : str_nat i = str_nat j -> i = j.
Proof.
  unfold str_nat. intro H.
  apply DecimalNat.Unsigned.to_uint_inj.
  apply (f_equal DecimalString.NilEmpty.uint_of_string) in H.
  rewrite !DecimalString.NilEmpty.usu in H. injection H as H. exact H.
Qed.

Lemma list_ascii_of_string_app (a b : string) :
  list_ascii_of_string (a ++ b) = list_ascii_of_string a ++ list_ascii_of_string b.
Proof. induction a as [|c a IH]; simpl; [reflexivity | rewrite IH; reflexivity]. Qed.

Lemma string_app_inv_tail (a b t : string) :
  (a ++ t = b ++ t)%string -> a = b.
Proof.
  intro H. apply (f_equal list_ascii_of_string) in H.
  rewrite !list_ascii_of_string_app in H. apply app_inv_tail in H.
  apply (f_equal string_of_list_ascii) in H.
  rewrite !string_of_list_ascii_of_string in H. exact H.
Qed.

Lemma user_suffix_is_no_number (a : string) :
  DecimalString.NilEmpty.uint_of_string (a ++ "_user") = None.
Proof.
  induction a as [|c a IH]; simpl; [reflexivity|].
  simpl in IH. rewrite IH. reflexivity.
Qed.

Lemma user_key_is_no_reply_key (i j : nat) :
  (str_nat i ++ "_user")%string <> str_nat j.
Proof.
  intro H. apply (f_equal DecimalString.NilEmpty.uint_of_string) in H.
  rewrite user_suffix_is_no_number in H. unfold str_nat in H.
  rewrite DecimalString.NilEmpty.usu in H. discriminate H.
Qed.

Lemma bubbles_from_keys (texts : list string) :
  forall (i : nat) (replies : list (option string)) (k : string),
    In k (map key (bubbles_from i texts replies)) ->
    exists j, i <= j /\ (k = (str_nat j ++ "_user")%string \/ k = str_nat j).
Proof.
  induction texts as [|t texts IH]; intros i [|r replies] k Hin; simpl in Hin;
    try contradiction.
  destruct Hin as [<- | [<- | Hin]].
  - exists i. split; [lia | left; reflexivity].
  - exists i. split; [lia | right; reflexivity].
  - destruct (IH (S i) replies k Hin) as (j & Hj & Hk).
    exists j. split; [lia | exact Hk].
Qed.

Lemma bubbles_from_keys_distinct (texts : list string) :
  forall (i : nat) (replies : list (option string)),
    NoDup (map key (bubbles_from i texts replies)).
Proof.
  induction texts as [|t texts IH]; intros i [|r replies]; simpl;
    try constructor.
  - intros [Heq | Hin].
    + symmetry in Heq. exact (user_key_is_no_reply_key i i Heq).
    + destruct (bubbles_from_keys _ _ _ _ Hin) as (j & Hj & [Hk | Hk]).
      * apply string_app_inv_tail, str_nat_inj in Hk. lia.
      * exact (user_key_is_no_reply_key i j Hk).
  - constructor; [|apply IH].
    intro Hin. destruct (bubbles_from_keys _ _ _ _ Hin) as (j & Hj & [Hk | Hk]).
    + symmetry in Hk. exact (user_key_is_no_reply_key j i Hk).
    + apply str_nat_inj in Hk. lia.
Qed.

(** The bubbles of the history all get different widget keys: [str(i)]
    for the reply of turn [i], [str(i) + "_user"] for its user text. *)
Theorem render_keys_are_distinct (s : Session) :
  length (past s) = length (generated s) ->
  NoDup (map key (fst (render s))).
Proof.
  intro Hlen.
  rewrite (render_aligned s Hlen). simpl.
  apply bubbles_from_keys_distinct.
Qed.

(* ===================================================================== *)
(** ** The further statements on scripted worlds *)
(* ===================================================================== *)

Lemma lookup_comma_token_found_raises_witness :
  PyStr.replace_comma "fever," <> "fever," /\
  fst (@query_icd_11_api
         (Scenario.externals (Scenario.lookup_world Scenario.search_fever))
         (PyString "fever, cough") (Scenario.start _))
  = Raise (KeyError "fever").
Proof.
  split; [simpl; discriminate|].
  apply (@lookup_comma_token_found_raises
           (Scenario.externals (Scenario.lookup_world Scenario.search_fever))
           "fever, cough" "fever," ["cough"] (Scenario.start _) "tok" 0%nat
           {| status_code := 200;
              json := Ok {| destinationEntities := Some [Scenario.MG26] |} |}
           0%nat {| destinationEntities := Some [Scenario.MG26] |}
           Scenario.MG26 []).
  - reflexivity.
  - simpl. discriminate.
  - reflexivity.
  - reflexivity.
  - reflexivity.
  - reflexivity.
  - reflexivity.
Defined.

Lemma lookup_nothing_found_witness :
  fst (@query_icd_11_api
         (Scenario.externals (Scenario.lookup_world Cases.search_nothing))
         (PyString "fever, cough") (Scenario.start _))
  = Ok (Some (Json.dumps [("fever,", [])])).
Proof.
  apply (@lookup_nothing_found_maps_token_to_empty
           (Scenario.externals (Scenario.lookup_world Cases.search_nothing))
           "fever, cough" "fever," ["cough"] (Scenario.start _) "tok" 0%nat
           {| status_code := 200; json := Ok {| destinationEntities := Some [] |} |}
           0%nat {| destinationEntities := Some [] |});
    reflexivity.
Defined.

Lemma lookup_found_witness :
  fst (@query_icd_11_api
         (Scenario.externals (Scenario.lookup_world Cases.search_twice))
         (PyString "fever cough") (Scenario.start _))
  = Ok (Some (Json.dumps [("fever", [(Some "MG26", Some "http://id.who.int/icd/2")])])) /\
  Dict.get opt_eqb (Some "MG26") (codes_of [Scenario.MG26; Cases.MG26_again])
  = Some (Some "http://id.who.int/icd/2").
Proof.
  destruct (@lookup_found_maps_codes_to_links
              (Scenario.externals (Scenario.lookup_world Cases.search_twice))
              "fever cough" "fever" ["cough"] (Scenario.start _) "tok" 0%nat
              {| status_code := 200;
                 json := Ok {| destinationEntities :=
                                 Some [Scenario.MG26; Cases.MG26_again] |} |}
              0%nat
              {| destinationEntities := Some [Scenario.MG26; Cases.MG26_again] |}
              [Scenario.MG26; Cases.MG26_again])
    as (Hreturn & _ & Hlast).
  - reflexivity.
  - reflexivity.
  - reflexivity.
  - reflexivity.
  - reflexivity.
  - reflexivity.
  - reflexivity.
  - split; [exact Hreturn|].
    apply (Hlast [Scenario.MG26] Cases.MG26_again []); [reflexivity|].
    intros e' [].
Defined.

Lemma lookup_without_access_token_witness :
  fst (@query_icd_11_api (Scenario.externals Cases.no_token)
         (PyString "fever") (Scenario.start _))
  = Raise (KeyError "access_token").
Proof.
  apply (@lookup_without_access_token_raises
           (Scenario.externals Cases.no_token)
           (PyString "fever") (Scenario.start _) 0%nat).
  reflexivity.
Defined.

Lemma lookup_of_non_string_witness :
  fst (@query_icd_11_api
         (Scenario.externals (Scenario.lookup_world Scenario.search_fever))
         PyNone (Scenario.start _))
  = Raise (AttributeError "'NoneType' object has no attribute 'split'").
Proof.
  apply (@lookup_of_non_string_raises_after_token
           (Scenario.externals (Scenario.lookup_world Scenario.search_fever))
           PyNone (Scenario.start _) "tok" 0%nat);
    reflexivity.
Defined.

Lemma turn_raises_witness :
  (fst (@generate_response (Scenario.externals Scenario.llm_down) "hi"
          (Scenario.start _))
   = Raise unbound_completion) /\
  (fst (@generate_response (Scenario.externals Cases.no_usage) "hi"
          (Scenario.start _))
   = Raise (AttributeError "'NoneType' object has no attribute 'total_tokens'") /\
   (missing_usage = unbound_completion \/
    (missing_usage = missing_usage /\
     exists model completion w1,
       @chat_completions_create (Scenario.externals Cases.no_usage)
         (@first_chat_request (Scenario.externals Cases.no_usage)
            model "hi" (Scenario.start _)) 0%nat
       = (Ok completion, w1) /\
       usage completion = None))) /\
  exists model completion w1 u,
    @chat_completions_create (Scenario.externals Scenario.small_talk)
      (@first_chat_request (Scenario.externals Scenario.small_talk)
         model "hi" (Scenario.start _)) 0%nat
    = (Ok completion, w1) /\
    usage completion = Some u /\
    Some 12%Z = Some (total_tokens u) /\
    Some 9%Z = Some (prompt_tokens u) /\
    Some 3%Z = Some (completion_tokens u).
Proof.
  split; [vm_compute; reflexivity|]. split.
  - assert (H : fst (@generate_response (Scenario.externals Cases.no_usage) "hi"
                       (Scenario.start _)) = Raise missing_usage)
      by (vm_compute; reflexivity).
    split; [exact H|].
    apply (proj1 (@turn_raises_only_from_lines_110_112
                    (Scenario.externals Cases.no_usage) "hi" (Scenario.start _))
                 missing_usage H).
  - apply (proj2 (@turn_raises_only_from_lines_110_112
                    (Scenario.externals Scenario.small_talk) "hi" (Scenario.start _))
                 (Some "Hello.") (Some 12%Z) (Some 9%Z) (Some 3%Z)).
    vm_compute. reflexivity.
Defined.

Lemma turn_without_azure_key_witness :
  let E := Scenario.externals Cases.no_deployment in
  let out := @generate_response E "hi" (Scenario.start _) in
  fst out = Raise unbound_completion /\
  @events_since E (Scenario.start _) (snd out) = [] /\
  @world E (snd out) = 0%nat /\
  messages (session (snd out)) = [Scenario.seed; RoleContent "user" "hi"].
Proof.
  cbv zeta.
  apply (@turn_without_azure_key_raises (Scenario.externals Cases.no_deployment)
           "hi" (Scenario.start _)).
  intros model (_ & _ & H). simpl in H. discriminate H.
Defined.

Lemma turn_with_unknown_capability_witness :
  fst (@generate_response (Scenario.externals Cases.unknown_capability)
         "code fever" (Scenario.start _))
  = Ok (Some "The API could not handle this content: 'query_snomed_api'",
        Some 30%Z, Some 20%Z, Some 10%Z).
Proof.
  pose (tc := Scenario.call "call_1" "query_snomed_api" Scenario.args_fever).
  refine (f_equal fst
            (@turn_with_unknown_capability
               (Scenario.externals Cases.unknown_capability)
               "code fever" (Scenario.start _) "gpt-4"
               (Cases.asks "query_snomed_api" Scenario.args_fever) 1%nat
               {| total_tokens := 30; prompt_tokens := 20; completion_tokens := 10 |}
               {| finish_reason := "tool_calls";
                  message := {| content := None; tool_calls := Some [tc] |} |}
               [] tc [] _ _ _ _ _ _ _)).
  - apply scenario_configured. reflexivity.
  - reflexivity.
  - reflexivity.
  - reflexivity.
  - reflexivity.
  - reflexivity.
  - simpl. discriminate.
Defined.

Lemma turn_with_unreadable_arguments_witness :
  fst (@generate_response (Scenario.externals Cases.unreadable_arguments)
         "code fever" (Scenario.start _))
  = Ok (Some "The API could not handle this content: Expecting value: line 1 column 1 (char 0)",
        Some 30%Z, Some 20%Z, Some 10%Z).
Proof.
  pose (tc := Scenario.call "call_1" "query_icd_11_api" "{").
  refine (f_equal fst
            (@turn_with_unreadable_arguments
               (Scenario.externals Cases.unreadable_arguments)
               "code fever" (Scenario.start _) "gpt-4"
               (Cases.asks "query_icd_11_api" "{") 1%nat
               {| total_tokens := 30; prompt_tokens := 20; completion_tokens := 10 |}
               {| finish_reason := "tool_calls";
                  message := {| content := None; tool_calls := Some [tc] |} |}
               [] tc []
               (OtherError "Expecting value: line 1 column 1 (char 0)")
               _ _ _ _ _ _ _ _)).
  - apply scenario_configured. reflexivity.
  - reflexivity.
  - reflexivity.
  - reflexivity.
  - reflexivity.
  - reflexivity.
  - reflexivity.
  - reflexivity.
Defined.

Lemma turn_with_failing_capability_witness :
  let E := Scenario.externals Scenario.auth_refused in
  let out := @generate_response E "code fever" (Scenario.start _) in
  fst out
  = Ok (Some "The API could not handle this content: 401 Client Error: Unauthorized",
        Some 30%Z, Some 20%Z, Some 10%Z) /\
  length (messages (session (snd out))) = 3%nat /\
  length (filter is_chat (@events_since E (Scenario.start _) (snd out))) = 1%nat.
Proof.
  cbv zeta.
  pose (E := Scenario.externals Scenario.auth_refused).
  pose (first := Scenario.call "call_1" "query_icd_11_api" Scenario.args_fever).
  pose (choice := {| finish_reason := "tool_calls";
                     message := {| content := None;
                                   tool_calls := Some [first;
                                     Scenario.call "call_2" "query_icd_11_api" "{}"] |} |}).
  destruct (@turn_with_failing_capability E "code fever" (Scenario.start _) "gpt-4"
              Scenario.asks_lookup 1%nat
              {| total_tokens := 30; prompt_tokens := 20; completion_tokens := 10 |}
              choice [] first
              [Scenario.call "call_2" "query_icd_11_api" "{}"]
              [("input", PyString "fever")]
              (OtherError "401 Client Error: Unauthorized")
              (snd (@query_icd_11_api E (PyString "fever")
                      (@state_at_call E "gpt-4" "code fever" (Scenario.start _) 1%nat choice))))
    as (Hrun & Hmessages & Hchat).
  - apply scenario_configured. reflexivity.
  - reflexivity.
  - reflexivity.
  - reflexivity.
  - reflexivity.
  - reflexivity.
  - reflexivity.
  - reflexivity.
  - vm_compute. reflexivity.
  - subst E. split; [exact (f_equal fst Hrun)|].
    assert (Hsnd := f_equal snd Hrun). cbn [snd] in Hsnd.
    rewrite Hsnd, Hmessages, Hchat. split; reflexivity.
Defined.

Lemma failed_turn_witness :
  let E := Scenario.externals Scenario.llm_down in
  let out := @run_script E (Scenario.send "hi") None 0%nat in
  fst out = Raise unbound_completion /\
  messages (session (snd out))
  = [RoleContent "system" "You are an assistant to a clinical coder.";
     RoleContent "user" "hi"] /\
  past (session (snd out)) = [] /\
  generated (session (snd out)) = [] /\
  model_name (session (snd out)) = [].
Proof.
  cbv zeta.
  destruct (@failed_turn_is_in_messages_not_in_history
              (Scenario.externals Scenario.llm_down)
              (Scenario.send "hi") None 0%nat unbound_completion)
    as (Hout & _ & _ & Hmessages & Hpast & Hgenerated & Hmodel).
  - reflexivity.
  - reflexivity.
  - reflexivity.
  - vm_compute. reflexivity.
  - split; [exact Hout|]. split; [exact (Hmessages eq_refl)|].
    split; [exact Hpast|]. split; [exact Hgenerated | exact Hmodel].
Defined.

Lemma render_witness :
  render Cases.talked
  = ([user_bubble 0 "hi"; reply_bubble 0 (Some "Hello.")], Ok tt) /\
  length (fst (render Cases.talked)) = 2%nat.
Proof.
  apply (render_shows_every_turn_in_order Cases.talked). reflexivity.
Defined.

Lemma render_keys_witness :
  NoDup (map key (fst (render Cases.talked))).
Proof.
  apply (render_keys_are_distinct Cases.talked). reflexivity.
Defined.

(* ===================================================================== *)
(** ** What a search is asked *)
(* ===================================================================== *)

Lemma all_chars_app (p : ascii -> bool) (a b : string) :
  PyStr.all_chars p (a ++ b) = PyStr.all_chars p a && PyStr.all_chars p b.
Proof.
  induction a as [|c a IH]; simpl; [reflexivity|].
  rewrite IH, andb_assoc. reflexivity.
Qed.

(** The words [split] gives have no whitespace in them. *)
Lemma split_from_words (s : string) :
  forall (cur word : string),
    PyStr.all_chars (fun c => negb (PyStr.is_space c)) cur = true ->
    In word (PyStr.split_from cur s) ->
    PyStr.all_chars (fun c => negb (PyStr.is_space c)) word = true.
Proof.
  induction s as [|c rest IH]; intros cur word Hcur Hin; simpl in Hin.
  - destruct cur; simpl in Hin; [contradiction|].
    destruct Hin as [<- | []]. exact Hcur.
  - destruct (PyStr.is_space c) eqn:Hc.
    + destruct cur; simpl in Hin.
      * apply (IH EmptyString word); [reflexivity | exact Hin].
      * destruct Hin as [<- | Hin]; [exact Hcur|].
        apply (IH EmptyString word); [reflexivity | exact Hin].
    + apply (IH (cur ++ String c EmptyString)%string word); [|exact Hin].
      rewrite all_chars_app, Hcur. simpl. rewrite Hc. reflexivity.
Qed.

Lemma replace_comma_no_comma (w : string) :
  PyStr.has_char "," (PyStr.replace_comma w) = false.
Proof.
  induction w as [|c w IH]; [reflexivity|].
  cbn [PyStr.replace_comma].
  destruct (Ascii.eqb c ",") eqn:E; [exact IH|].
  cbn [PyStr.has_char]. rewrite Ascii.eqb_sym, E. exact IH.
Qed.

Lemma replace_comma_keeps (p : ascii -> bool) (w : string) :
  PyStr.all_chars p w = true -> PyStr.all_chars p (PyStr.replace_comma w) = true.
Proof.
  induction w as [|c w IH]; simpl; [auto|].
  intro H. apply andb_true_iff in H as [Hc Hw].
  destruct (Ascii.eqb c ","); simpl; [auto|]. rewrite Hc. auto.
Qed.

Section Searches.
Context `{Ext : Externals}.

(** Where the search of a lookup comes from. *)
Lemma lookup_search_event (input : PyVal) (st : State)
      (url : string) (headers : list (string * string)) :
  In (EvGet url headers) (events_since st (snd (query_icd_11_api input st))) ->
  exists s word rest t w1,
    input = PyString s /\
    PyStr.split s = word :: rest /\
    token_granted (world st) t w1 /\
    url = search_url (PyStr.replace_comma word) /\
    headers = search_headers t.
Proof.
  unfold events_since, token_granted.
  unfold query_icd_11_api, for_word, split_input, bind, log, external, lift,
    ret, raise; simpl.
  destruct (requests_post_json TOKEN_ENDPOINT payload (world st)) as [[r|e] w1];
    simpl.
  2:{ rewrite <- app_assoc, skipn_past. simpl. intros [H|[H|[]]]; discriminate H. }
  destruct r as [[t|]]; simpl.
  2:{ rewrite <- app_assoc, skipn_past. simpl. intros [H|[H|[]]]; discriminate H. }
  destruct input as [| | |s| |]; simpl;
    try (rewrite <- app_assoc, skipn_past; simpl;
         intros [H|[H|[]]]; discriminate H).
  destruct (PyStr.split s) as [|word rest] eqn:Hsplit; simpl.
  { rewrite <- app_assoc, skipn_past. simpl. intros [H|[H|[]]]; discriminate H. }
  assert (Hfound :
    In (EvGet url headers)
       [EvCall "query_icd_11_api" (PyString s); EvPost TOKEN_ENDPOINT payload;
        EvGet (search_url (PyStr.replace_comma word)) (search_headers t)] ->
    exists s0 word0 rest0 t0 w0,
      PyString s = PyString s0 /\
      PyStr.split s0 = word0 :: rest0 /\
      (Ok {| access_token := Some t |}, w1)
      = (Ok {| access_token := Some t0 |}, w0) /\
      url = search_url (PyStr.replace_comma word0) /\
      headers = search_headers t0).
  { intros [H|[H|[H|[]]]]; try discriminate H.
    injection H as <- <-. exists s, word, rest, t, w1. auto. }
  destruct (requests_get _ _ w1) as [[resp|e] w2]; simpl.
  2:{ repeat rewrite <- app_assoc. rewrite skipn_past. exact Hfound. }
  destruct (status_code resp =? 200)%Z; simpl.
  2:{ repeat rewrite <- app_assoc. rewrite skipn_past. exact Hfound. }
  destruct (json resp) as [body|e]; simpl.
  2:{ repeat rewrite <- app_assoc. rewrite skipn_past. exact Hfound. }
  destruct (destinationEntities body) as [codes|]; simpl.
  2:{ repeat rewrite <- app_assoc. rewrite skipn_past. exact Hfound. }
  match goal with
  | |- context [record_codes ?w ?c ?m ?s] =>
      destruct (record_codes w c m s) as [[m'|e] s'] eqn:E
  end; apply (f_equal snd) in E; rewrite record_codes_state in E;
    simpl in E; subst s'; simpl;
    repeat rewrite <- app_assoc; rewrite skipn_past; exact Hfound.
Qed.

(** Whatever a lookup is given, a search it makes is for the first
    whitespace-separated word of the input with its commas removed, so
    that the word asked for has neither comma nor whitespace in it, and
    it carries the token granted in this very call. *)
Theorem lookup_searches_first_word_with_its_own_token
        (input : PyVal) (st : State) (url : string)
        (headers : list (string * string)) :
  In (EvGet url headers) (events_since st (snd (query_icd_11_api input st))) ->
  exists s word rest t w1,
    input = PyString s /\
    PyStr.split s = word :: rest /\
    token_granted (world st) t w1 /\
    url = search_url (PyStr.replace_comma word) /\
    headers = search_headers t /\
    PyStr.has_char "," (PyStr.replace_comma word) = false /\
    PyStr.all_chars (fun c => negb (PyStr.is_space c)) (PyStr.replace_comma word)
    = true.
Proof.
  intro Hin.
  destruct (lookup_search_event input st url headers Hin)
    as (s & word & rest & t & w1 & Hinput & Hsplit & Htok & Hurl & Hheaders).
  exists s, word, rest, t, w1. repeat split; auto.
  - apply replace_comma_no_comma.
  - apply replace_comma_keeps.
    apply (split_from_words s EmptyString word); [reflexivity|].
    fold (PyStr.split s). rewrite Hsplit. left. reflexivity.
Qed.

End Searches.

Lemma lookup_searches_witness :
  exists s word rest t w1,
    PyString "fever, cough" = PyString s /\
    PyStr.split s = word :: rest /\
    @token_granted (Scenario.externals (Scenario.lookup_world Scenario.search_fever))
      0%nat t w1 /\
    search_url "fever" = search_url (PyStr.replace_comma word) /\
    search_headers "tok" = search_headers t /\
    PyStr.has_char "," (PyStr.replace_comma word) = false /\
    PyStr.all_chars (fun c => negb (PyStr.is_space c)) (PyStr.replace_comma word)
    = true.
Proof.
  apply (@lookup_searches_first_word_with_its_own_token
           (Scenario.externals (Scenario.lookup_world Scenario.search_fever))
           (PyString "fever, cough") (Scenario.start _)
           (search_url "fever") (search_headers "tok")).
  vm_compute. right. right. left. reflexivity.
Defined.

(* ===================================================================== *)
(** ** Where the answer of a turn goes *)
(* ===================================================================== *)

Section Answer.
Context `{Ext : Externals}.

#[local] Arguments query_icd_11_api : simpl never.

Ltac break_innermost :=
  match goal with
  | |- context [match ?x with _ => _ end] =>
      lazymatch x with
      | context [match _ with _ => _ end] => fail
      | _ => destruct x eqn:?
      end
  end.




End Answer.

